(** * elements.py: layers, openings and walls

    A shallow embedding of [src/elements.py].  Python integers are [Z],
    exceptions are values of [exn] carried by the [result] type, and the
    few places where the program relies on dynamic typing (an attribute
    that is an [int] on one class and a bound method on another, the
    operands of [+], enum-typed fields that can hold any object) are
    modelled by small sum types.

    Two definitions of the source have no executable body and are left
    out: [Wall._check_layer] (a [for] header without a suite) and
    [Connection.volume] (it calls [self._volume], which no class
    defines, and has no [return]). *)

From Stdlib Require Import ZArith List String Bool Lia.
Import ListNotations.

Open Scope string_scope.
Open Scope Z_scope.

(** ** Exceptions and results *)

(** A column label of a data frame, also the payload of [KeyError]. *)
Inductive label : Type :=
| LInt (n : Z)
| LStr (s : string).

(** The exceptions the program can raise.  An assertion message is
    recorded by its literal text, up to the interpolated value. *)
Inductive exn : Type :=
| AssertionError (msg : string)
| TypeError (msg : string)
| KeyError (key : label)
| ValueError (msg : string)
| IndexError (msg : string).

Inductive result (A : Type) : Type :=
| Ok (a : A)
| Raise (e : exn).

Arguments Ok {A} a.
Arguments Raise {A} e.

Definition bind {A B : Type} (r : result A) (k : A -> result B) : result B :=
  match r with
  | Ok a => k a
  | Raise e => Raise e
  end.

Notation "x <- c1 ;; c2" := (bind c1 (fun x => c2))
  (at level 61, c1 at next level, right associativity).
Notation "c1 ;; c2" := (bind c1 (fun _ => c2))
  (at level 61, right associativity).

(** [assert cond, msg] *)
Definition py_assert (cond : bool) (msg : string) : result unit :=
  if cond then Ok tt else Raise (AssertionError msg).

(** Evaluation of a list of computations from left to right, stopping
    at the first exception (a list comprehension, a [for] loop that
    appends). *)
Fixpoint mapM {A B : Type} (f : A -> result B) (xs : list A) : result (list B) :=
  match xs with
  | [] => Ok []
  | x :: rest =>
      y <- f x ;;
      ys <- mapM f rest ;;
      Ok (y :: ys)
  end.

Definition raises {A : Type} (r : result A) : Prop :=
  exists e, r = Raise e.

Definition returns {A : Type} (r : result A) : Prop :=
  exists a, r = Ok a.

(** ** Enumerations *)

Module Quantity.
Inductive t : Type := M3 | M2 | P.
Definition value (q : t) : string :=
  match q with
  | M3 => "m3"
  | M2 => "m2"
  | P => "peace"
  end.
End Quantity.

Module Side.
Inductive t : Type := TOP | BOTTOM | FRONT | REAR | LEFT | RIGHT.
Definition value (s : t) : string :=
  match s with
  | TOP => "xy+"
  | BOTTOM => "xy-"
  | FRONT => "xz-"
  | REAR => "xz+"
  | LEFT => "yz-"
  | RIGHT => "yz+"
  end.
End Side.

Module Axis.
Inductive t : Type := L | W | H.
Definition value (a : t) : string :=
  match a with
  | L => "l"
  | W => "w"
  | H => "h"
  end.
Definition eqb (a b : t) : bool :=
  match a, b with
  | L, L | W, W | H, H => true
  | _, _ => false
  end.
(** [Axis.__contains__(a)] for a member [a] of the enumeration. *)
Definition __contains__ (a : t) : bool :=
  existsb (eqb a) [L; W; H].
End Axis.

(** Python does not enforce annotations: a field annotated with an
    enumeration holds either one of its members or some other object.
    Other objects never compare equal to a member. *)
Inductive atom : Type :=
| AStr (s : string)
| AInt (n : Z)
| ANone.

Inductive dyn (E : Type) : Type :=
| Member (m : E)
| NonMember (a : atom).

Arguments Member {E} m.
Arguments NonMember {E} a.

(** The module constant [MATERIALS]: name, price and unit, the unit as a
    plain string. *)
Definition MATERIALS : list (string * Z * string) :=
  [("concrete", 10, "m3"); ("brick", 11, "m3"); ("faced_brick", 15, "m3");
   ("window", 100, "m2"); ("door", 60, "peace")].

(** ** Dimension *)

Record Dimension : Type := {
  axis : Axis.t;
  quantity : Z;
  _is_scaled : bool
}.

Definition Dimension___post_init__ (self : Dimension) : result unit :=
  py_assert (Axis.__contains__ (axis self)) "Value must be instance of" ;;
  py_assert (0 <? quantity self) "Dimension must be > 0".

(** [Dimension(axis, quantity)]: the generated [__init__] stores the
    fields, [_is_scaled] takes its default [False], then
    [__post_init__] runs. *)
Definition Dimension_new (a : Axis.t) (q : Z) : result Dimension :=
  let self := {| axis := a; quantity := q; _is_scaled := false |} in
  Dimension___post_init__ self ;;
  Ok self.

(** [self.scaled(scale)] mutates [self]: the result is the returned
    integer together with the object after the call.  When the call
    raises, the object is unchanged. *)
Definition Dimension_scaled (self : Dimension) (scale : Z) : result (Z * Dimension) :=
  py_assert (0 <? scale) "Scale must be > 0" ;;
  if _is_scaled self then Raise (AssertionError "Value already scaled")
  else
    let self' := {| axis := axis self; quantity := quantity self; _is_scaled := true |} in
    Ok (quantity self * scale, self').

(** The generated [__eq__] of the dataclass compares the field tuples. *)
Definition Dimension___eq__ (a b : Dimension) : bool :=
  Axis.eqb (axis a) (axis b) && (quantity a =? quantity b) && Bool.eqb (_is_scaled a) (_is_scaled b).

(** ** CoordSet *)

Record CoordSet : Type := {
  x1 : Z; y1 : Z; z1 : Z;
  x2 : Z; y2 : Z; z2 : Z
}.

Fixpoint assert_all_nonneg (values : list Z) : result unit :=
  match values with
  | [] => Ok tt
  | value :: rest =>
      py_assert (0 <=? value) "Coordinate shouldn't less than zero" ;;
      assert_all_nonneg rest
  end.

Definition CoordSet___post_init__ (self : CoordSet) : result unit :=
  assert_all_nonneg [x1 self; y1 self; z1 self; x2 self; y2 self; z2 self].

Definition CoordSet_new (a b c d e f : Z) : result CoordSet :=
  let self := {| x1 := a; y1 := b; z1 := c; x2 := d; y2 := e; z2 := f |} in
  CoordSet___post_init__ self ;;
  Ok self.

(** The dataclass fields of [CoordSet], in declaration order, as
    [dataclasses.fields] and [dataclasses.asdict] enumerate them. *)
Definition CoordSet_fields : list (string * (CoordSet -> Z)) :=
  [("x1", x1); ("y1", y1); ("z1", z1); ("x2", x2); ("y2", y2); ("z2", z2)].

(** ** The part of pandas and of the builtins that [Wall.coords] uses *)

(** A frame of integers: labelled columns, in order. *)
Record DataFrame : Type := {
  columns : list (label * list Z)
}.

(** [pd.DataFrame(data)] for a list of dataclass instances.  pandas
    converts each instance with [dataclasses.asdict], so the columns of
    the frame are labelled by the field names and hold one row per
    instance; an empty list gives a frame without columns. *)
Definition pd_DataFrame (data : list CoordSet) : DataFrame :=
  match data with
  | [] => {| columns := [] |}
  | _ :: _ =>
      {| columns := map (fun '(f, get) => (LStr f, map get data)) CoordSet_fields |}
  end.

Definition label_eqb (a b : label) : bool :=
  match a, b with
  | LInt m, LInt n => m =? n
  | LStr s, LStr t => String.eqb s t
  | _, _ => false
  end.

(** [df[key]]: the column labelled [key], [KeyError] when there is none. *)
Definition DataFrame___getitem__ (df : DataFrame) (key : label) : result (list Z) :=
  match find (fun col => label_eqb (fst col) key) (columns df) with
  | Some col => Ok (snd col)
  | None => Raise (KeyError key)
  end.

Definition py_min (xs : list Z) : result Z :=
  match xs with
  | [] => Raise (ValueError "min() arg is an empty sequence")
  | x :: rest => Ok (fold_left Z.min rest x)
  end.

Definition py_max (xs : list Z) : result Z :=
  match xs with
  | [] => Raise (ValueError "max() arg is an empty sequence")
  | x :: rest => Ok (fold_left Z.max rest x)
  end.

(** [seq[i]] on a tuple or list. *)
Definition py_index {A : Type} (xs : list A) (i : nat) : result A :=
  match nth_error xs i with
  | Some x => Ok x
  | None => Raise (IndexError "index out of range")
  end.

(** ** Materials, layers, openings and walls

    Prices are annotated [float].  The model keeps the price type
    abstract, together with the two products the program forms:
    [int * price] in [Layer.cost] and [price * int] in [Window.cost] and
    [Door.cost]. *)

Section Elements.

Context {price : Type}.
Variable int_mul_price : Z -> price -> price.
Variable price_mul_int : price -> Z -> price.

Record Material : Type := {
  m_name : string;
  m_price : price;
  price_quantity : dyn Quantity.t
}.

(** [Material(name, price, price_quantity)]: the class has no
    [__post_init__], the generated [__init__] stores its arguments. *)
Definition Material_new (n : string) (p : price) (q : dyn Quantity.t) : result Material :=
  Ok {| m_name := n; m_price := p; price_quantity := q |}.

(** The five dataclass fields of [Layer].  [connections] is a
    [List[Any]] that no method reads. *)
Record Layer : Type := {
  name : string;
  material : Material;
  exterior : dyn Side.t;
  connections : list atom;
  coords : CoordSet
}.

(** An instance of [Layer] or of one of its subclasses.  [LayerMinus]
    adds no field, [Window] and [Door] add [price]. *)
Inductive LayerObject : Type :=
| OLayer (fields : Layer)
| OLayerMinus (fields : Layer)
| OWindow (fields : Layer) (price_ : price)
| ODoor (fields : Layer) (price_ : price).

Definition fields (o : LayerObject) : Layer :=
  match o with
  | OLayer l | OLayerMinus l | OWindow l _ | ODoor l _ => l
  end.

(** [isinstance(o, LayerMinus)] *)
Definition is_LayerMinus (o : LayerObject) : bool :=
  match o with
  | OLayer _ => false
  | _ => true
  end.

(** The objects that reach [+], [sum] and a call in this program. *)
Inductive value : Type :=
| VInt (n : Z)
| VDimension (d : Dimension)
| VMethod (self : LayerObject).

(** [Dimension.__add__] *)
Definition Dimension___add__ (self : Dimension) (other : value) : result Dimension :=
  match other with
  | VDimension other =>
      py_assert (Axis.eqb (axis self) (axis other)) "Only the same dimensions can be combined" ;;
      Dimension_new (axis self) (quantity self + quantity other)
  | _ => Raise (AssertionError "Other must be instance of")
  end.

(** [a + b].  [int.__add__] handles an [int] only; neither [Dimension]
    nor a bound method defines [__radd__], and a method defines no
    [__add__]. *)
Definition py_add (a b : value) : result value :=
  match a, b with
  | VInt m, VInt n => Ok (VInt (m + n))
  | VDimension d, _ => r <- Dimension___add__ d b ;; Ok (VDimension r)
  | _, _ => Raise (TypeError "unsupported operand type(s) for +")
  end.

(** [sum(values)]: the additions start from the integer [0]. *)
Fixpoint py_sum_from (acc : value) (values : list value) : result value :=
  match values with
  | [] => Ok acc
  | v :: rest => acc' <- py_add acc v ;; py_sum_from acc' rest
  end.

Definition py_sum (values : list value) : result value :=
  py_sum_from (VInt 0) values.

(** *** Layer *)

Definition Layer_dimensions (self : Layer) : result (list Dimension) :=
  let c := coords self in
  let length := Z.abs (x2 c - x1 c) in
  let width := Z.abs (y2 c - y1 c) in
  let height := Z.abs (z2 c - z1 c) in
  let '(length, width) := if width >? length then (width, length) else (length, width) in
  dl <- Dimension_new Axis.L length ;;
  dw <- Dimension_new Axis.W width ;;
  dh <- Dimension_new Axis.H height ;;
  Ok [dl; dw; dh].

Definition Layer_area (self : Layer) : result Z :=
  let c := coords self in
  match exterior self with
  | Member Side.FRONT | Member Side.REAR =>
      Ok (Z.abs (x2 c - x1 c) * Z.abs (z2 c - z1 c))
  | Member Side.LEFT | Member Side.RIGHT =>
      Ok (Z.abs (y2 c - y1 c) * Z.abs (z2 c - z1 c))
  | Member Side.TOP | Member Side.BOTTOM =>
      Ok (Z.abs (x2 c - x1 c) * Z.abs (y2 c - y1 c))
  | NonMember _ => Raise (AssertionError "Exterior argument must belong to")
  end.

(** The getter of the property [Layer.volume]. *)
Definition Layer_volume (self : Layer) : result Z :=
  ds <- Layer_dimensions self ;;
  Ok (fold_left (fun value d => quantity d * value) ds 1).

Definition Layer_scaled (self : Layer) (scale : Z) : result (list Dimension) :=
  py_assert (0 <? scale) "Scale must be > 0" ;;
  ds <- Layer_dimensions self ;;
  mapM (fun d => r <- Dimension_scaled d scale ;; Dimension_new (axis d) (fst r)) ds.

(** *** LayerMinus *)

(** The plain method [LayerMinus.volume]; [super(LayerMinus, self).volume]
    reads the property of [Layer] on the same instance. *)
Definition LayerMinus_volume (self : LayerObject) : result Z :=
  volume <- Layer_volume (fields self) ;;
  Ok (- volume).

(** The attribute [o.volume].  On a [Layer] it is the property, whose
    getter runs; on a [LayerMinus], [Window] or [Door] the class
    attribute found first is the function [LayerMinus.volume], so the
    attribute is a bound method and nothing runs. *)
Definition getattr_volume (o : LayerObject) : result value :=
  match o with
  | OLayer l => v <- Layer_volume l ;; Ok (VInt v)
  | _ => Ok (VMethod o)
  end.

(** [f()] *)
Definition py_call (f : value) : result value :=
  match f with
  | VMethod self => v <- LayerMinus_volume self ;; Ok (VInt v)
  | _ => Raise (TypeError "object is not callable")
  end.

(** [o.volume()] *)
Definition call_volume (o : LayerObject) : result value :=
  f <- getattr_volume o ;;
  py_call f.

(** *** Cost *)

(** [v * p] for the attribute value [v] and a price [p]. *)
Definition py_mul_price (v : value) (p : price) : result price :=
  match v with
  | VInt n => Ok (int_mul_price n p)
  | _ => Raise (TypeError "unsupported operand type(s) for *")
  end.

(** [Layer.cost], which [LayerMinus] inherits. *)
Definition Layer_cost (self : LayerObject) : result price :=
  let m := material (fields self) in
  match price_quantity m with
  | Member Quantity.M3 =>
      v <- getattr_volume self ;;
      py_mul_price v (m_price m)
  | Member Quantity.M2 =>
      a <- Layer_area (fields self) ;;
      Ok (int_mul_price a (m_price m))
  | Member Quantity.P => Ok (m_price m)
  | NonMember _ => Raise (AssertionError "Wrong price quantity of the material")
  end.

(** [o.cost()]: [Window] and [Door] override the method. *)
Definition cost (o : LayerObject) : result price :=
  match o with
  | OLayer _ | OLayerMinus _ => Layer_cost o
  | OWindow l p | ODoor l p =>
      a <- Layer_area l ;;
      Ok (price_mul_int p a)
  end.

(** *** Wall *)

Record Wall : Type := {
  w_name : string;
  _layers : list LayerObject
}.

(** [isinstance(o, Layer)]: every class of [LayerObject] derives from
    [Layer]. *)
Definition isinstance_Layer (o : LayerObject) : bool := true.

(** The truth value of a list: it is true when the list is not empty. *)
Definition py_bool {A : Type} (xs : list A) : bool :=
  match xs with
  | [] => false
  | _ :: _ => true
  end.

Definition Wall___post_init__ (self : Wall) : result unit :=
  py_assert (py_bool (_layers self)) "At least one layer should be added to Wall" ;;
  let wrong_objects := filter (fun layer => negb (isinstance_Layer layer)) (_layers self) in
  py_assert (negb (py_bool wrong_objects)) "Wrong object(s) passed to".

Definition Wall_new (n : string) (layers : list LayerObject) : result Wall :=
  let self := {| w_name := n; _layers := layers |} in
  Wall___post_init__ self ;;
  Ok self.

(** [self.add_layer(layer)] appends to the list of the wall; the result
    is the wall after the call. *)
Definition Wall_add_layer (self : Wall) (layer : LayerObject) : result Wall :=
  py_assert (isinstance_Layer layer) "Layer object should be passed" ;;
  Ok {| w_name := w_name self; _layers := _layers self ++ [layer] |}.

Definition Wall_volume (self : Wall) : result value :=
  volumes <- mapM getattr_volume (_layers self) ;;
  py_sum volumes.

(** The inner loop of [Wall.dimensions] for the index [i], from the
    current value of [dimension]. *)
Fixpoint Wall_dimensions_loop (i : nat) (dimension : value) (layers : list LayerObject) : result value :=
  match layers with
  | [] => Ok dimension
  | layer :: rest =>
      ds <- Layer_dimensions (fields layer) ;;
      d <- py_index ds i ;;
      dimension' <- py_add dimension (VDimension d) ;;
      Wall_dimensions_loop i dimension' rest
  end.

Definition Wall_dimensions (self : Wall) : result (list value) :=
  mapM (fun i => Wall_dimensions_loop i (VInt 0) (_layers self)) [0%nat; 1%nat; 2%nat].

Definition Wall_coords (self : Wall) : result CoordSet :=
  let data := map (fun layer => coords (fields layer)) (_layers self) in
  let df := pd_DataFrame data in
  a <- (col <- DataFrame___getitem__ df (LInt 0) ;; py_min col) ;;
  b <- (col <- DataFrame___getitem__ df (LInt 1) ;; py_min col) ;;
  c <- (col <- DataFrame___getitem__ df (LInt 2) ;; py_min col) ;;
  d <- (col <- DataFrame___getitem__ df (LInt 3) ;; py_max col) ;;
  e <- (col <- DataFrame___getitem__ df (LInt 4) ;; py_max col) ;;
  f <- (col <- DataFrame___getitem__ df (LInt 5) ;; py_max col) ;;
  CoordSet_new a b c d e f.

End Elements.

Arguments Material price : clear implicits.
Arguments Layer price : clear implicits.
Arguments LayerObject price : clear implicits.
Arguments value price : clear implicits.
Arguments Wall price : clear implicits.

(** ** Derived extents and the shapes the statements below speak of *)

Definition extent_x (c : CoordSet) : Z := Z.abs (x2 c - x1 c).
Definition extent_y (c : CoordSet) : Z := Z.abs (y2 c - y1 c).
Definition extent_z (c : CoordSet) : Z := Z.abs (z2 c - z1 c).

(** A box that is flat along some axis. *)
Definition degenerate (c : CoordSet) : Prop :=
  x1 c = x2 c \/ y1 c = y2 c \/ z1 c = z2 c.

Definition positive_extents (c : CoordSet) : Prop :=
  0 < extent_x c /\ 0 < extent_y c /\ 0 < extent_z c.

(** [dimensions()] returns a length, a width and a height, the length
    and the width exchanged when the extent along y exceeds the one
    along x, and [volume] is the product of the three extents. *)
Definition canonical_triple {price : Type} (l : Layer price) : Prop :=
  let c := coords l in
  exists dl dw dh,
    Layer_dimensions l = Ok [dl; dw; dh] /\
    axis dl = Axis.L /\ axis dw = Axis.W /\ axis dh = Axis.H /\
    (if extent_y c >? extent_x c
     then quantity dl = extent_y c /\ quantity dw = extent_x c
     else quantity dl = extent_x c /\ quantity dw = extent_y c) /\
    quantity dh = extent_z c /\
    quantity dl >= quantity dw /\
    Layer_volume l = Ok (extent_x c * extent_y c * extent_z c) /\
    extent_x c * extent_y c * extent_z c >= 0.

Definition raises_assertion {A : Type} (r : result A) : Prop :=
  exists msg, r = Raise (AssertionError msg).

(** ** Concrete objects *)

Definition box (a b c d e f : Z) : CoordSet :=
  {| x1 := a; y1 := b; z1 := c; x2 := d; y2 := e; z2 := f |}.

Definition per_volume (p : Z) : Material Z :=
  {| m_name := "concrete"; m_price := p; price_quantity := Member Quantity.M3 |}.

Definition per_area (p : Z) : Material Z :=
  {| m_name := "window"; m_price := p; price_quantity := Member Quantity.M2 |}.

Definition per_piece (p : Z) : Material Z :=
  {| m_name := "door"; m_price := p; price_quantity := Member Quantity.P |}.

(** A row of [MATERIALS] passed to [Material] as it is: the unit is the
    string, not the member of [Quantity]. *)
Definition raw_material : Material Z :=
  {| m_name := "concrete"; m_price := 10; price_quantity := NonMember (AStr "m3") |}.

Definition slab (n : string) (m : Material Z) (c : CoordSet) : Layer Z :=
  {| name := n; material := m; exterior := Member Side.FRONT; connections := []; coords := c |}.

Definition layer_10 : Layer Z := slab "inner" (per_volume 10) (box 0 0 0 5 2 1).
Definition layer_20 : Layer Z := slab "outer" (per_volume 10) (box 0 0 0 5 4 1).
Definition window_5 : LayerObject Z := OWindow (slab "window" (per_area 100) (box 1 0 0 2 1 5)) 100.
Definition layer_5 : Layer Z := slab "fill" (per_volume 10) (box 1 0 0 2 1 5).
Definition layer_6 : Layer Z := slab "six" (per_volume 10) (box 0 0 0 3 2 1).
Definition layer_area_4 : Layer Z := slab "four" (per_area 11) (box 0 0 0 2 7 2).
Definition flat_layer : Layer Z := slab "flat" (per_volume 10) (box 0 0 0 0 1 1).

Definition layer_piece : Layer Z := slab "door" (per_piece 60) (box 0 0 0 1 2 3).
Definition layer_raw : Layer Z := slab "raw" raw_material (box 0 0 0 3 2 1).

Definition dimension (a : Axis.t) (q : Z) : Dimension :=
  {| axis := a; quantity := q; _is_scaled := false |}.

Definition wall_10_20_m5 : Wall Z :=
  {| w_name := "nord"; _layers := [OLayer layer_10; OLayer layer_20; window_5] |}.

Definition wall_10_20 : Wall Z :=
  {| w_name := "nord"; _layers := [OLayer layer_10; OLayer layer_20] |}.

Definition wall_boxes : Wall Z :=
  {| w_name := "nord";
     _layers := [OLayer (slab "a" (per_volume 10) (box 0 0 0 2 2 2));
                 OLayer (slab "b" (per_volume 10) (box 1 1 1 3 3 3))] |}.

(** ** Equality of instances, and [Wall.remove_layer] *)

Definition atom_eqb (a b : atom) : bool :=
  match a, b with
  | AStr s, AStr t => String.eqb s t
  | AInt m, AInt n => m =? n
  | ANone, ANone => true
  | _, _ => false
  end.

Definition Quantity_eqb (a b : Quantity.t) : bool :=
  match a, b with
  | Quantity.M3, Quantity.M3 | Quantity.M2, Quantity.M2 | Quantity.P, Quantity.P => true
  | _, _ => false
  end.

Definition Side_eqb (a b : Side.t) : bool :=
  match a, b with
  | Side.TOP, Side.TOP | Side.BOTTOM, Side.BOTTOM
  | Side.FRONT, Side.FRONT | Side.REAR, Side.REAR
  | Side.LEFT, Side.LEFT | Side.RIGHT, Side.RIGHT => true
  | _, _ => false
  end.

(** [a == b] on a field annotated with an enumeration: two members are
    equal when they are the same member, a member and another object are
    never equal. *)
Definition dyn_eqb {E : Type} (eqb : E -> E -> bool) (a b : dyn E) : bool :=
  match a, b with
  | Member m, Member n => eqb m n
  | NonMember x, NonMember y => atom_eqb x y
  | _, _ => false
  end.

(** [xs == ys] on lists. *)
Fixpoint list_eqb {A : Type} (eqb : A -> A -> bool) (xs ys : list A) : bool :=
  match xs, ys with
  | [], [] => true
  | x :: xs', y :: ys' => eqb x y && list_eqb eqb xs' ys'
  | _, _ => false
  end.

(** The generated [__eq__] of [CoordSet]. *)
Definition CoordSet___eq__ (a b : CoordSet) : bool :=
  (x1 a =? x1 b) && (y1 a =? y1 b) && (z1 a =? z1 b) &&
  (x2 a =? x2 b) && (y2 a =? y2 b) && (z2 a =? z2 b).

(** [xs.index] of the first item that satisfies [p], the length of [xs]
    when there is none. *)
Fixpoint first_index {A : Type} (p : A -> bool) (xs : list A) : nat :=
  match xs with
  | [] => 0%nat
  | x :: rest => if p x then 0%nat else S (first_index p rest)
  end.

(** [xs.remove(x)] for the object [x] that [xs] holds at the index [i]:
    the first item that is [x] itself or compares equal to [x] is
    removed. *)
Fixpoint py_list_remove {A : Type} (eqb : A -> A -> bool) (x : A) (i : nat) (xs : list A) : result (list A) :=
  match xs with
  | [] => Raise (ValueError "list.remove(x): x not in list")
  | item :: rest =>
      if Nat.eqb i 0 || eqb item x then Ok rest
      else
        rest' <- py_list_remove eqb x (Nat.pred i) rest ;;
        Ok (item :: rest')
  end.

Section Equality.

Context {price : Type}.
Variable price_eqb : price -> price -> bool.

(** The generated [__eq__] of [Material]. *)
Definition Material___eq__ (a b : Material price) : bool :=
  String.eqb (m_name a) (m_name b) && price_eqb (m_price a) (m_price b) &&
  dyn_eqb Quantity_eqb (price_quantity a) (price_quantity b).

(** The comparison of the five fields that every class of layers has. *)
Definition Layer_fields_eqb (a b : Layer price) : bool :=
  String.eqb (name a) (name b) && Material___eq__ (material a) (material b) &&
  dyn_eqb Side_eqb (exterior a) (exterior b) &&
  list_eqb atom_eqb (connections a) (connections b) &&
  CoordSet___eq__ (coords a) (coords b).

(** [a == b] on layers: each dataclass compares its field tuple with the
    one of an instance of the very same class, and instances of two
    different classes are not equal. *)
Definition LayerObject___eq__ (a b : LayerObject price) : bool :=
  match a, b with
  | OLayer x, OLayer y => Layer_fields_eqb x y
  | OLayerMinus x, OLayerMinus y => Layer_fields_eqb x y
  | OWindow x p, OWindow y q => Layer_fields_eqb x y && price_eqb p q
  | ODoor x p, ODoor y q => Layer_fields_eqb x y && price_eqb p q
  | _, _ => false
  end.

(** [self.remove_layer(layer)]; the result is the wall after the call.
    The message of the assertion starts with the interpolated name, its
    literal text follows.  [layer_to_remove[0]] is the object at the
    first index of [_layers] whose name is [layer]. *)
Definition Wall_remove_layer (self : Wall price) (layer : string) : result (Wall price) :=
  let has_name := fun l : LayerObject price => String.eqb (name (fields l)) layer in
  let layer_to_remove := filter has_name (_layers self) in
  py_assert (py_bool layer_to_remove) "not found in the Wall layers" ;;
  first <- py_index layer_to_remove 0 ;;
  layers <- py_list_remove LayerObject___eq__ first (first_index has_name (_layers self)) (_layers self) ;;
  Ok {| w_name := w_name self; _layers := layers |}.

End Equality.

(** ** Iteration over a CoordSet *)

(** A CoordSet on which [__iter__] has been called: the instance with
    its attribute [_i]. *)
Record CoordSetIterator : Type := {
  iterated : CoordSet;
  _i : Z
}.

(** [CoordSet.__iter__] sets [_i] to 0 and returns the instance. *)
Definition CoordSet___iter__ (self : CoordSet) : CoordSetIterator :=
  {| iterated := self; _i := 0 |}.

(** [xs[i]] for an integer [i]: a negative index counts from the end. *)
Definition py_getitem {A : Type} (xs : list A) (i : Z) : result A :=
  let n := Z.of_nat (List.length xs) in
  let j := if i <? 0 then i + n else i in
  if (0 <=? j) && (j <? n) then py_index xs (Z.to_nat j)
  else Raise (IndexError "list index out of range").

(** [CoordSet.__next__]: the item at [_i]; [_i] is left as it is. *)
Definition CoordSet___next__ (self : CoordSetIterator) : result (Z * CoordSetIterator) :=
  let c := iterated self in
  item <- py_getitem [x1 c; y1 c; z1 c; x2 c; y2 c; z2 c] (_i self) ;;
  Ok (item, self).

(** The first [n] items a [for] loop over the iterator receives. *)
Fixpoint py_take (n : nat) (it : CoordSetIterator) : result (list Z) :=
  match n with
  | O => Ok []
  | S k =>
      r <- CoordSet___next__ it ;;
      rest <- py_take k (snd r) ;;
      Ok (fst r :: rest)
  end.

(** ** Further shapes for the statements below *)

Definition box_volume (c : CoordSet) : Z :=
  extent_x c * extent_y c * extent_z c.

(** The extent of a box along the normal of a side. *)
Definition normal_extent (s : Side.t) (c : CoordSet) : Z :=
  match s with
  | Side.FRONT | Side.REAR => extent_y c
  | Side.LEFT | Side.RIGHT => extent_x c
  | Side.TOP | Side.BOTTOM => extent_z c
  end.

(** The area of the face of a box on a side. *)
Definition face_area (s : Side.t) (c : CoordSet) : Z :=
  match s with
  | Side.FRONT | Side.REAR => extent_x c * extent_z c
  | Side.LEFT | Side.RIGHT => extent_y c * extent_z c
  | Side.TOP | Side.BOTTOM => extent_x c * extent_y c
  end.

Definition same_extents (c c' : CoordSet) : Prop :=
  extent_x c = extent_x c' /\ extent_y c = extent_y c' /\ extent_z c = extent_z c'.

(** The box with its two corners exchanged. *)
Definition swap_corners (c : CoordSet) : CoordSet :=
  {| x1 := x2 c; y1 := y2 c; z1 := z2 c; x2 := x1 c; y2 := y1 c; z2 := z1 c |}.

Definition with_coords {price : Type} (l : Layer price) (c : CoordSet) : Layer price :=
  {| name := name l; material := material l; exterior := exterior l;
     connections := connections l; coords := c |}.

Definition with_material {price : Type} (l : Layer price) (m : Material price) : Layer price :=
  {| name := name l; material := m; exterior := exterior l;
     connections := connections l; coords := coords l |}.

Definition layer_names {price : Type} (w : Wall price) : list string :=
  map (fun o => name (fields o)) (_layers w).

(** A base Layer on a box of positive extents. *)
Definition solid {price : Type} (o : LayerObject price) : Prop :=
  is_LayerMinus o = false /\ positive_extents (coords (fields o)).

(** ** Further concrete objects *)

(** The box of [layer_6] moved and given by its other two corners. *)
Definition layer_6_moved : Layer Z := slab "six" (per_volume 10) (box 5 7 9 2 5 8).

(** A layer whose exterior is the value of a side, not the side. *)
Definition layer_no_side : Layer Z :=
  {| name := "bad"; material := per_area 11; exterior := NonMember (AStr "xz-");
     connections := []; coords := box 0 0 0 2 7 2 |}.

Definition scaled_dimension (a : Axis.t) (q : Z) : Dimension :=
  {| axis := a; quantity := q; _is_scaled := true |}.

(** Two layers of the wall carry the name "outer". *)
Definition wall_two_outer : Wall Z :=
  {| w_name := "nord";
     _layers := [OLayer layer_10; OLayer layer_20; window_5; OLayer layer_20] |}.

Definition wall_empty : Wall Z :=
  {| w_name := "nord"; _layers := [] |}.

(** * Properties *)

(** ** Results *)

Lemma Ok_not_raises {A : Type} (a : A) : ~ raises (Ok a).
Proof. intros [e He]. discriminate He. Qed.

Lemma raises_not_returns {A : Type} (r : result A) : raises r -> ~ returns r.
Proof. intros [e He] [a Ha]. congruence. Qed.

Lemma raises_assertion_raises {A : Type} (r : result A) : raises_assertion r -> raises r.
Proof. intros [msg Hm]. exists (AssertionError msg). exact Hm. Qed.

Lemma bind_raises {A B : Type} (r : result A) (k : A -> result B) :
  raises r -> raises (x <- r ;; k x).
Proof. intros [e He]. subst r. exists e. reflexivity. Qed.

Lemma bind_raises_assertion {A B : Type} (r : result A) (k : A -> result B) :
  raises_assertion r -> raises_assertion (x <- r ;; k x).
Proof. intros [msg Hm]. subst r. exists msg. reflexivity. Qed.

(** ** Dimension *)

Lemma Axis_eqb_eq (a b : Axis.t) : Axis.eqb a b = true <-> a = b.
Proof. destruct a, b; simpl; split; intros E; (reflexivity || discriminate E). Qed.

Lemma Dimension_new_pos (a : Axis.t) (q : Z) :
  0 < q -> Dimension_new a q = Ok {| axis := a; quantity := q; _is_scaled := false |}.
Proof.
  intros Hq. unfold Dimension_new, Dimension___post_init__. simpl.
  apply Z.ltb_lt in Hq. rewrite Hq. destruct a; reflexivity.
Qed.

Lemma Dimension_new_nonpos (a : Axis.t) (q : Z) :
  q <= 0 -> Dimension_new a q = Raise (AssertionError "Dimension must be > 0").
Proof.
  intros Hq. unfold Dimension_new, Dimension___post_init__. simpl.
  apply Z.ltb_ge in Hq. rewrite Hq. destruct a; reflexivity.
Qed.

Lemma Dimension_new_inv (a : Axis.t) (q : Z) (d : Dimension) :
  Dimension_new a q = Ok d -> 0 < q /\ d = {| axis := a; quantity := q; _is_scaled := false |}.
Proof.
  intros E. destruct (Z_lt_le_dec 0 q) as [Hq | Hq].
  - rewrite (Dimension_new_pos a q Hq) in E. injection E as <-. split; [exact Hq | reflexivity].
  - rewrite (Dimension_new_nonpos a q Hq) in E. discriminate E.
Qed.

(** ** Layer geometry *)

Section LayerGeometry.

Context {price : Type}.
Implicit Types (l : Layer price) (o : LayerObject price).

Lemma extents_nonneg (c : CoordSet) :
  0 <= extent_x c /\ 0 <= extent_y c /\ 0 <= extent_z c.
Proof. unfold extent_x, extent_y, extent_z. repeat split; apply Z.abs_nonneg. Qed.

Lemma degenerate_iff (c : CoordSet) : degenerate c <-> ~ positive_extents c.
Proof.
  unfold degenerate, positive_extents, extent_x, extent_y, extent_z. lia.
Qed.

(** What [dimensions()] computes on a box of positive extents. *)
Lemma Layer_dimensions_positive l :
  positive_extents (coords l) ->
  Layer_dimensions l =
    Ok [ {| axis := Axis.L; quantity := Z.max (extent_x (coords l)) (extent_y (coords l)); _is_scaled := false |};
         {| axis := Axis.W; quantity := Z.min (extent_x (coords l)) (extent_y (coords l)); _is_scaled := false |};
         {| axis := Axis.H; quantity := extent_z (coords l); _is_scaled := false |} ].
Proof.
  intros (Hx & Hy & Hz). unfold Layer_dimensions.
  fold (extent_x (coords l)) (extent_y (coords l)) (extent_z (coords l)).
  destruct (Z.gtb_spec (extent_y (coords l)) (extent_x (coords l))) as [Hgt | Hle].
  - rewrite !Dimension_new_pos by assumption. simpl.
    rewrite Z.max_r, Z.min_l by lia. reflexivity.
  - rewrite !Dimension_new_pos by assumption. simpl.
    rewrite Z.max_l, Z.min_r by lia. reflexivity.
Qed.

(** On a flat box the construction of one of the three [Dimension]s
    fails its assertion. *)
Lemma Layer_dimensions_degenerate l :
  ~ positive_extents (coords l) ->
  Layer_dimensions l = Raise (AssertionError "Dimension must be > 0").
Proof.
  intros Hdeg. unfold Layer_dimensions.
  fold (extent_x (coords l)) (extent_y (coords l)) (extent_z (coords l)).
  destruct (extents_nonneg (coords l)) as (Hx & Hy & Hz).
  unfold positive_extents in Hdeg.
  assert (Hnew : forall a q, 0 <= q ->
            Dimension_new a q = Raise (AssertionError "Dimension must be > 0") \/
            (0 < q /\ Dimension_new a q = Ok {| axis := a; quantity := q; _is_scaled := false |})).
  { intros a q Hq. destruct (Z.eq_dec q 0) as [-> | Hne].
    - left. apply Dimension_new_nonpos. lia.
    - right. split; [lia | apply Dimension_new_pos; lia]. }
  destruct (extent_y (coords l) >? extent_x (coords l)).
  - destruct (Hnew Axis.L _ Hy) as [-> | [Hy' ->]]; [reflexivity | simpl].
    destruct (Hnew Axis.W _ Hx) as [-> | [Hx' ->]]; [reflexivity | simpl].
    destruct (Hnew Axis.H _ Hz) as [-> | [Hz' ->]]; [reflexivity | lia].
  - destruct (Hnew Axis.L _ Hx) as [-> | [Hx' ->]]; [reflexivity | simpl].
    destruct (Hnew Axis.W _ Hy) as [-> | [Hy' ->]]; [reflexivity | simpl].
    destruct (Hnew Axis.H _ Hz) as [-> | [Hz' ->]]; [reflexivity | lia].
Qed.

Lemma positive_extents_dec (c : CoordSet) : {positive_extents c} + {~ positive_extents c}.
Proof.
  unfold positive_extents.
  destruct (Z_lt_dec 0 (extent_x c)); [ | right; tauto].
  destruct (Z_lt_dec 0 (extent_y c)); [ | right; tauto].
  destruct (Z_lt_dec 0 (extent_z c)); [left; tauto | right; tauto].
Qed.

Lemma Layer_volume_positive l :
  positive_extents (coords l) ->
  Layer_volume l = Ok (extent_x (coords l) * extent_y (coords l) * extent_z (coords l)).
Proof.
  intros Hpos. unfold Layer_volume. rewrite (Layer_dimensions_positive l Hpos). simpl.
  f_equal. destruct Hpos as (Hx & Hy & Hz).
  destruct (Z.max_spec (extent_x (coords l)) (extent_y (coords l))) as [[? ->] | [? ->]];
  destruct (Z.min_spec (extent_x (coords l)) (extent_y (coords l))) as [[? ->] | [? ->]];
  try lia; ring.
Qed.

Lemma Layer_volume_degenerate l :
  ~ positive_extents (coords l) ->
  Layer_volume l = Raise (AssertionError "Dimension must be > 0").
Proof.
  intros Hdeg. unfold Layer_volume. rewrite (Layer_dimensions_degenerate l Hdeg). reflexivity.
Qed.

(** C6 (as amended).  For every Layer whose box has a positive extent
    along each of the three axes, [dimensions()] returns the canonical
    (length, width, height) triple, length and width exchanged when
    |y2-y1| > |x2-x1|, so that length.quantity >= width.quantity, and
    [volume] equals |x2-x1| * |y2-y1| * |z2-z1|, which is positive. *)
Theorem Layer_dimensions_canonical l :
  positive_extents (coords l) ->
  canonical_triple l /\
  0 < extent_x (coords l) * extent_y (coords l) * extent_z (coords l).
Proof.
  intros Hpos. pose proof Hpos as (Hx & Hy & Hz).
  assert (Hprod : 0 < extent_x (coords l) * extent_y (coords l) * extent_z (coords l)).
  { apply Z.mul_pos_pos; [apply Z.mul_pos_pos | ]; assumption. }
  split; [ | exact Hprod].
  unfold canonical_triple. cbv zeta.
  eexists _, _, _. split; [apply (Layer_dimensions_positive l Hpos) | ].
  simpl. repeat split.
  - destruct (Z.gtb_spec (extent_y (coords l)) (extent_x (coords l))); split; lia.
  - lia.
  - apply Layer_volume_positive, Hpos.
  - lia.
Qed.

(** C10.  [dimensions()] returns exactly when the three absolute extents
    are strictly positive.  On a Layer whose box is flat along some axis
    (x1 = x2, y1 = y2 or z1 = z2), [dimensions()], the property
    [volume], [LayerMinus.volume] and [scaled(scale)] for every scale
    all raise [AssertionError]. *)
Theorem Layer_degenerate_raises l :
  (returns (Layer_dimensions l) <-> positive_extents (coords l)) /\
  (degenerate (coords l) ->
     raises_assertion (Layer_dimensions l) /\
     raises_assertion (Layer_volume l) /\
     raises_assertion (getattr_volume (OLayer l)) /\
     (forall o, fields o = l -> raises_assertion (LayerMinus_volume o)) /\
     (forall scale, raises_assertion (Layer_scaled l scale))).
Proof.
  split.
  - split.
    + intros [t Ht]. destruct (positive_extents_dec (coords l)) as [Hpos | Hdeg]; [exact Hpos | ].
      rewrite (Layer_dimensions_degenerate l Hdeg) in Ht. discriminate Ht.
    + intros Hpos. eexists. apply (Layer_dimensions_positive l Hpos).
  - intros Hdeg. apply degenerate_iff in Hdeg.
    repeat split.
    + eexists. apply (Layer_dimensions_degenerate l Hdeg).
    + eexists. apply (Layer_volume_degenerate l Hdeg).
    + unfold getattr_volume. rewrite (Layer_volume_degenerate l Hdeg). eexists. reflexivity.
    + intros o <-. unfold LayerMinus_volume.
      rewrite (Layer_volume_degenerate _ Hdeg). eexists. reflexivity.
    + intros scale. unfold Layer_scaled, py_assert.
      destruct (0 <? scale); simpl.
      * rewrite (Layer_dimensions_degenerate l Hdeg). eexists. reflexivity.
      * eexists. reflexivity.
Qed.

End LayerGeometry.

(** ** Scaling and adding dimensions *)

(** C7.  [scaled(factor)] raises when factor <= 0, raises when the
    Dimension has already been scaled, and otherwise returns
    quantity * factor and leaves the Dimension in the scaled state; so a
    second call on the same instance raises whatever its factor. *)
Theorem Dimension_scaled_once (d : Dimension) (factor : Z) :
  (factor <= 0 -> raises_assertion (Dimension_scaled d factor)) /\
  (_is_scaled d = true -> raises_assertion (Dimension_scaled d factor)) /\
  (0 < factor -> _is_scaled d = false ->
     Dimension_scaled d factor =
       Ok (quantity d * factor,
           {| axis := axis d; quantity := quantity d; _is_scaled := true |})) /\
  (forall v d', Dimension_scaled d factor = Ok (v, d') ->
     v = quantity d * factor /\ _is_scaled d' = true /\
     forall factor', raises_assertion (Dimension_scaled d' factor')).
Proof.
  assert (Hscaled : forall d0 f, _is_scaled d0 = true -> raises_assertion (Dimension_scaled d0 f)).
  { intros d0 f Hs. unfold Dimension_scaled, py_assert.
    destruct (0 <? f); simpl; [rewrite Hs | ]; eexists; reflexivity. }
  split; [ | split; [ | split]].
  - intros Hf. unfold Dimension_scaled, py_assert.
    apply Z.ltb_ge in Hf. rewrite Hf. eexists. reflexivity.
  - apply Hscaled.
  - intros Hf Hs. unfold Dimension_scaled, py_assert.
    apply Z.ltb_lt in Hf. rewrite Hf. simpl. rewrite Hs. reflexivity.
  - intros v d'. unfold Dimension_scaled at 1. unfold py_assert.
    destruct (0 <? factor); simpl; [ | discriminate].
    destruct (_is_scaled d); [discriminate | ].
    intros E. injection E as <- <-.
    split; [reflexivity | split; [reflexivity | ]].
    intros factor'. apply Hscaled. reflexivity.
Qed.

Section Addition.

Context {price : Type}.

(** C8.  [a + b] on two Dimensions raises unless they have the same
    axis; when they do, and both quantities are positive as their
    construction requires, it returns a new Dimension on that axis, in
    the un-scaled state, whose quantity is the sum of the two. *)
Theorem Dimension_add_same_axis (a b : Dimension) :
  (axis a <> axis b ->
     raises_assertion (Dimension___add__ a (VDimension b : value price)) /\
     raises (py_add (VDimension a) (VDimension b : value price))) /\
  (axis a = axis b -> 0 < quantity a -> 0 < quantity b ->
     Dimension___add__ a (VDimension b : value price) =
       Ok {| axis := axis a; quantity := quantity a + quantity b; _is_scaled := false |} /\
     py_add (VDimension a) (VDimension b : value price) =
       Ok (VDimension {| axis := axis a; quantity := quantity a + quantity b; _is_scaled := false |})).
Proof.
  split.
  - intros Hne.
    assert (E : Axis.eqb (axis a) (axis b) = false).
    { destruct (Axis.eqb (axis a) (axis b)) eqn:E; [ | reflexivity].
      apply Axis_eqb_eq in E. contradiction. }
    unfold py_add, Dimension___add__, py_assert. rewrite E. simpl.
    split; eexists; reflexivity.
  - intros Heq Ha Hb.
    assert (E : Axis.eqb (axis a) (axis b) = true) by (apply Axis_eqb_eq; exact Heq).
    unfold py_add, Dimension___add__, py_assert. rewrite E. simpl.
    rewrite Dimension_new_pos by lia. split; reflexivity.
Qed.

End Addition.

(** ** Materials and cost *)

Section Pricing.

Context {price : Type}.
Variable int_mul_price : Z -> price -> price.
Variable price_mul_int : price -> Z -> price.

(** C9 (as amended).  Constructing a Material checks nothing: for every
    name, price and pricing unit, [Material(name, price, unit)] returns
    an instance that holds the three arguments, whatever the sign of the
    price. *)
Theorem Material_new_total (n : string) (p : price) (q : dyn Quantity.t) :
  Material_new n p q = Ok {| m_name := n; m_price := p; price_quantity := q |} /\
  ~ raises (Material_new n p q).
Proof.
  split; [reflexivity | apply Ok_not_raises].
Qed.

(** C5.  [cost()] on a base Layer dispatches on the pricing unit of its
    material: volume times price for [Quantity.M3], area() times price
    for [Quantity.M2], the price alone for [Quantity.P] whatever the
    geometry, and an [AssertionError] for a unit that is none of the
    three members. *)
Theorem Layer_cost_dispatch (l : Layer price) :
  let m := material l in
  let cost_l := cost int_mul_price price_mul_int (OLayer l) in
  (price_quantity m = Member Quantity.M3 ->
     cost_l = (v <- Layer_volume l ;; Ok (int_mul_price v (m_price m)))) /\
  (price_quantity m = Member Quantity.M2 ->
     cost_l = (a <- Layer_area l ;; Ok (int_mul_price a (m_price m)))) /\
  (price_quantity m = Member Quantity.P -> cost_l = Ok (m_price m)) /\
  (forall other, price_quantity m = NonMember other ->
     cost_l = Raise (AssertionError "Wrong price quantity of the material")).
Proof.
  cbv zeta. unfold cost, Layer_cost. simpl fields.
  repeat split.
  - intros ->. unfold getattr_volume. destruct (Layer_volume l); reflexivity.
  - intros ->. reflexivity.
  - intros ->. reflexivity.
  - intros other ->. reflexivity.
Qed.

End Pricing.

(** ** Openings *)

Section Openings.

Context {price : Type}.
Implicit Types (l : Layer price) (o : LayerObject price).

Lemma call_volume_LayerMinus o :
  is_LayerMinus o = true ->
  call_volume o = (v <- LayerMinus_volume o ;; Ok (VInt v)).
Proof.
  intros Ho. destruct o; [discriminate Ho | reflexivity ..].
Qed.

(** C2.  For an opening [o] (a LayerMinus, Window or Door) and a Layer
    [l] on the same CoordSet, [o.volume()] is the negation of
    [l.volume]: it raises when the getter of [l.volume] raises, and it
    returns [-v] when [l.volume] is [v]. *)
Theorem Opening_volume_negates o l :
  is_LayerMinus o = true ->
  coords (fields o) = coords l ->
  LayerMinus_volume o = (v <- Layer_volume l ;; Ok (- v)) /\
  call_volume o = (v <- Layer_volume l ;; Ok (VInt (- v))) /\
  (forall v, getattr_volume (OLayer l) = Ok (VInt v) -> call_volume o = Ok (VInt (- v))).
Proof.
  intros Ho Hc.
  assert (Hvol : Layer_volume (fields o) = Layer_volume l).
  { unfold Layer_volume, Layer_dimensions. rewrite Hc. reflexivity. }
  assert (Hcall : call_volume o = (v <- Layer_volume l ;; Ok (VInt (- v)))).
  { rewrite (call_volume_LayerMinus o Ho). unfold LayerMinus_volume. rewrite Hvol.
    destruct (Layer_volume l); reflexivity. }
  split; [ | split].
  - unfold LayerMinus_volume. rewrite Hvol. reflexivity.
  - exact Hcall.
  - intros v. rewrite Hcall. unfold getattr_volume.
    destruct (Layer_volume l) as [v' | e]; simpl; [ | discriminate].
    intros E. injection E as ->. reflexivity.
Qed.

End Openings.

(** ** Wall *)

Section WallAggregates.

Context {price : Type}.
Implicit Types (l : Layer price) (o : LayerObject price) (w : Wall price).

(** Nothing can be added to a bound method. *)
Lemma py_add_method_raises (a : value price) o : raises (py_add a (VMethod o)).
Proof.
  destruct a; simpl; eexists; reflexivity.
Qed.

Lemma py_sum_from_method_raises (values : list (value price)) :
  forall (acc : value price) o, In (VMethod o) values -> raises (py_sum_from acc values).
Proof.
  induction values as [ | v rest IH]; intros acc o Hin; [destruct Hin | ].
  simpl. destruct Hin as [-> | Hin].
  - apply bind_raises, py_add_method_raises.
  - destruct (py_add acc v) as [acc' | e]; simpl.
    + apply (IH acc' o Hin).
    + eexists. reflexivity.
Qed.

Lemma mapM_getattr_volume_method (layers : list (LayerObject price)) o values :
  In o layers -> is_LayerMinus o = true ->
  mapM getattr_volume layers = Ok values -> In (VMethod o) values.
Proof.
  revert values. induction layers as [ | x rest IH]; intros values Hin Ho; [destruct Hin | ].
  simpl. destruct (getattr_volume x) as [vx | e] eqn:Ex; simpl; [ | discriminate].
  destruct (mapM getattr_volume rest) as [vs | e] eqn:Er; simpl; [ | discriminate].
  intros E. injection E as <-. destruct Hin as [-> | Hin].
  - left. destruct o; [discriminate Ho | simpl in Ex; injection Ex as <-; reflexivity ..].
  - right. apply (IH vs Hin Ho eq_refl).
Qed.

(** [Wall.volume()] returns on no wall that holds an opening. *)
Lemma Wall_volume_opening_raises w o :
  In o (_layers w) -> is_LayerMinus o = true -> raises (Wall_volume w).
Proof.
  intros Hin Ho. unfold Wall_volume.
  destruct (mapM getattr_volume (_layers w)) as [values | e] eqn:Em; simpl.
  - apply (py_sum_from_method_raises values (VInt 0) o).
    apply (mapM_getattr_volume_method (_layers w) o values Hin Ho Em).
  - eexists. reflexivity.
Qed.

Lemma py_sum_from_ints (ns : list Z) (acc : Z) :
  py_sum_from (VInt acc : value price) (map VInt ns) = Ok (VInt (fold_left Z.add ns acc)).
Proof.
  revert acc. induction ns as [ | n rest IH]; intros acc; simpl; [reflexivity | apply IH].
Qed.

(** On a wall of base Layers with boxes of positive extents,
    [Wall.volume()] is the sum of the layers' volumes. *)
Lemma Wall_volume_base_layers (n : string) (ls : list (Layer price)) :
  Forall (fun l => positive_extents (coords l)) ls ->
  Wall_volume {| w_name := n; _layers := map OLayer ls |} =
    Ok (VInt (fold_left Z.add
                (map (fun l => extent_x (coords l) * extent_y (coords l) * extent_z (coords l)) ls) 0)).
Proof.
  intros Hall. unfold Wall_volume. simpl.
  assert (Hmap : mapM getattr_volume (map OLayer ls) =
                 Ok (map VInt (map (fun l => extent_x (coords l) * extent_y (coords l) * extent_z (coords l)) ls))).
  { induction Hall as [ | l rest Hl Hrest IH]; simpl; [reflexivity | ].
    rewrite (Layer_volume_positive l Hl). simpl. rewrite IH. reflexivity. }
  rewrite Hmap. simpl. apply py_sum_from_ints.
Qed.

(** The first addition of [Wall.dimensions] is [0 + Dimension]. *)
Lemma Wall_dimensions_nonempty_raises (n : string) o (rest : list (LayerObject price)) :
  raises (Wall_dimensions {| w_name := n; _layers := o :: rest |}).
Proof.
  unfold Wall_dimensions. simpl.
  destruct (Layer_dimensions (fields o)) as [ds | e]; simpl; [ | eexists; reflexivity].
  destruct (py_index ds 0) as [d | e]; simpl; eexists; reflexivity.
Qed.

Lemma Wall_dimensions_positive_TypeError (n : string) o (rest : list (LayerObject price)) :
  positive_extents (coords (fields o)) ->
  Wall_dimensions {| w_name := n; _layers := o :: rest |} =
    Raise (TypeError "unsupported operand type(s) for +").
Proof.
  intros Hpos. unfold Wall_dimensions. simpl.
  rewrite (Layer_dimensions_positive (fields o) Hpos). reflexivity.
Qed.

(** No column of the frame built from CoordSets has an integer label. *)
Lemma pd_DataFrame_no_int_column (data : list CoordSet) (k : Z) :
  DataFrame___getitem__ (pd_DataFrame data) (LInt k) = Raise (KeyError (LInt k)).
Proof.
  destruct data; reflexivity.
Qed.

Lemma Wall_coords_KeyError w : Wall_coords w = Raise (KeyError (LInt 0)).
Proof.
  unfold Wall_coords. cbv zeta. rewrite pd_DataFrame_no_int_column. reflexivity.
Qed.

End WallAggregates.

(** ** The aggregates on concrete walls *)

(** C1.  The wall of the spec's example: two Layers of volume 10 and 20
    and a Window whose [volume()] is -5.  [Wall.volume()] reads the
    attribute [volume] of each entry; on the Window that attribute is a
    bound method, and [sum] raises [TypeError] instead of returning 25.
    Without the Window the sum is returned. *)
Theorem Wall_volume_opening_TypeError :
  Wall_new "nord" [OLayer layer_10; OLayer layer_20; window_5] = Ok wall_10_20_m5 /\
  getattr_volume (OLayer layer_10) = Ok (VInt 10) /\
  getattr_volume (OLayer layer_20) = Ok (VInt 20) /\
  call_volume window_5 = Ok (VInt (-5)) /\
  getattr_volume window_5 = Ok (VMethod window_5) /\
  Wall_volume wall_10_20_m5 = Raise (TypeError "unsupported operand type(s) for +") /\
  Wall_volume wall_10_20 = Ok (VInt 30).
Proof.
  repeat split.
Qed.

(** C3.  [Wall.dimensions()] starts each per-axis sum from the integer
    0 and adds a Dimension to it, which no [__add__] or [__radd__]
    accepts: on every wall with at least one layer the call raises, and
    on the wall of two Layers of dimensions (5, 2, 1) and (5, 4, 1) it
    raises [TypeError] instead of returning the sums (10, 6, 2). *)
Theorem Wall_dimensions_raises :
  (forall (price : Type) (n : string) (o : LayerObject price) (rest : list (LayerObject price)),
     raises (Wall_dimensions {| w_name := n; _layers := o :: rest |})) /\
  Layer_dimensions layer_10 = Ok [dimension Axis.L 5; dimension Axis.W 2; dimension Axis.H 1] /\
  Layer_dimensions layer_20 = Ok [dimension Axis.L 5; dimension Axis.W 4; dimension Axis.H 1] /\
  Wall_dimensions wall_10_20 = Raise (TypeError "unsupported operand type(s) for +").
Proof.
  split; [ | repeat split].
  intros price n o rest. apply Wall_dimensions_nonempty_raises.
Qed.

(** C4.  [Wall.coords()] asks the frame built from the layers' CoordSets
    for the columns 0 to 5, but the columns of that frame are labelled
    by the field names: on every wall the call raises [KeyError], and on
    the boxes (0,0,0,2,2,2) and (1,1,1,3,3,3) it does so instead of
    returning (0,0,0,3,3,3). *)
Theorem Wall_coords_raises :
  (forall (price : Type) (w : Wall price), Wall_coords w = Raise (KeyError (LInt 0))) /\
  map fst (columns (pd_DataFrame (map (fun o => coords (fields o)) (_layers wall_boxes)))) =
    [LStr "x1"; LStr "y1"; LStr "z1"; LStr "x2"; LStr "y2"; LStr "z2"] /\
  Wall_coords wall_boxes = Raise (KeyError (LInt 0)).
Proof.
  split; [ | split; reflexivity].
  intros price w. apply Wall_coords_KeyError.
Qed.

(** ** Counterexamples *)

(** C6 as stated fails on a box that is flat along x: [dimensions()]
    raises there, so no triple is returned and [volume] is not 0. *)
Lemma Layer_dimensions_flat_counterexample :
  Layer_dimensions flat_layer = Raise (AssertionError "Dimension must be > 0") /\
  Layer_volume flat_layer <> Ok (extent_x (coords flat_layer) * extent_y (coords flat_layer) * extent_z (coords flat_layer)) /\
  ~ canonical_triple flat_layer.
Proof.
  split; [reflexivity | split].
  - discriminate.
  - intros (dl & dw & dh & Hd & _). discriminate Hd.
Qed.

(** C9 as stated fails: a Material with the price -11 is constructed. *)
Lemma Material_negative_price_counterexample :
  -11 <= 0 /\
  Material_new "brick" (-11) (Member Quantity.M3) =
    Ok {| m_name := "brick"; m_price := -11; price_quantity := Member Quantity.M3 |} /\
  ~ raises (Material_new "brick" (-11) (Member Quantity.M3)).
Proof.
  split; [lia | split; [reflexivity | apply Ok_not_raises]].
Qed.

(** ** The statements above at concrete inputs *)

(** A Window on the box of [layer_5]: the Layer's volume is 5, the
    Window's is -5. *)
Lemma Opening_volume_negates_witness :
  is_LayerMinus window_5 = true /\
  coords (fields window_5) = coords layer_5 /\
  getattr_volume (OLayer layer_5) = Ok (VInt 5) /\
  LayerMinus_volume window_5 = Ok (- 5) /\
  call_volume window_5 = Ok (VInt (- 5)).
Proof.
  split; [reflexivity | split; [reflexivity | split; [reflexivity | ]]].
  destruct (Opening_volume_negates window_5 layer_5 eq_refl eq_refl) as (Hm & _ & Hv).
  split; [exact Hm | exact (Hv 5 eq_refl)].
Defined.

(** The three prices of the spec's examples, and a unit that is the
    string of the [MATERIALS] table. *)
Lemma Layer_cost_dispatch_witness :
  (price_quantity (material layer_6) = Member Quantity.M3 /\
   Layer_volume layer_6 = Ok 6 /\
   cost Z.mul Z.mul (OLayer layer_6) = Ok 60) /\
  (price_quantity (material layer_area_4) = Member Quantity.M2 /\
   Layer_area layer_area_4 = Ok 4 /\
   cost Z.mul Z.mul (OLayer layer_area_4) = Ok 44) /\
  (price_quantity (material layer_piece) = Member Quantity.P /\
   cost Z.mul Z.mul (OLayer layer_piece) = Ok 60) /\
  (price_quantity (material layer_raw) = NonMember (AStr "m3") /\
   cost Z.mul Z.mul (OLayer layer_raw) =
     Raise (AssertionError "Wrong price quantity of the material")).
Proof.
  split; [ | split; [ | split]].
  - split; [reflexivity | split; [reflexivity | ]].
    exact (proj1 (Layer_cost_dispatch Z.mul Z.mul layer_6) eq_refl).
  - split; [reflexivity | split; [reflexivity | ]].
    exact (proj1 (proj2 (Layer_cost_dispatch Z.mul Z.mul layer_area_4)) eq_refl).
  - split; [reflexivity | ].
    exact (proj1 (proj2 (proj2 (Layer_cost_dispatch Z.mul Z.mul layer_piece))) eq_refl).
  - split; [reflexivity | ].
    exact (proj2 (proj2 (proj2 (Layer_cost_dispatch Z.mul Z.mul layer_raw))) (AStr "m3") eq_refl).
Defined.

(** A box wider along y than along x: the extents (2, 7, 2) come back
    as length 7, width 2 and height 2, and the volume is 28. *)
Lemma Layer_dimensions_canonical_witness :
  positive_extents (coords layer_area_4) /\
  canonical_triple layer_area_4 /\
  Layer_dimensions layer_area_4 = Ok [dimension Axis.L 7; dimension Axis.W 2; dimension Axis.H 2] /\
  Layer_volume layer_area_4 = Ok 28.
Proof.
  assert (Hpos : positive_extents (coords layer_area_4)) by (repeat split).
  split; [exact Hpos | ].
  split; [exact (proj1 (Layer_dimensions_canonical layer_area_4 Hpos)) | ].
  split; reflexivity.
Defined.

(** [Dimension(L, 5).scaled(2)] returns 10; the same instance then
    refuses a second [scaled(2)]; a factor 0 is refused at once. *)
Lemma Dimension_scaled_once_witness :
  Dimension_new Axis.L 5 = Ok (dimension Axis.L 5) /\
  Dimension_scaled (dimension Axis.L 5) 2 =
    Ok (10, {| axis := Axis.L; quantity := 5; _is_scaled := true |}) /\
  raises_assertion (Dimension_scaled {| axis := Axis.L; quantity := 5; _is_scaled := true |} 2) /\
  raises_assertion (Dimension_scaled (dimension Axis.L 5) 0).
Proof.
  destruct (Dimension_scaled_once (dimension Axis.L 5) 2) as (_ & _ & Hok & Hagain).
  split; [reflexivity | ].
  split; [exact (Hok eq_refl eq_refl) | ].
  split.
  - exact (proj2 (proj2 (Hagain _ _ (Hok eq_refl eq_refl))) 2).
  - apply (proj1 (Dimension_scaled_once (dimension Axis.L 5) 0)). discriminate.
Defined.

(** [Dimension(L,3) + Dimension(W,4)] raises;
    [Dimension(L,3) + Dimension(L,4) == Dimension(L,7)]. *)
Lemma Dimension_add_same_axis_witness :
  raises_assertion (Dimension___add__ (dimension Axis.L 3) (VDimension (dimension Axis.W 4) : value Z)) /\
  (exists s,
     Dimension___add__ (dimension Axis.L 3) (VDimension (dimension Axis.L 4) : value Z) = Ok s /\
     Dimension___eq__ s (dimension Axis.L 7) = true).
Proof.
  split.
  - apply (proj1 (Dimension_add_same_axis (price := Z) (dimension Axis.L 3) (dimension Axis.W 4))).
    discriminate.
  - eexists. split.
    + apply (proj2 (Dimension_add_same_axis (price := Z) (dimension Axis.L 3) (dimension Axis.L 4)));
        reflexivity.
    + reflexivity.
Defined.

(** The box (0,0,0,0,1,1) is flat along x. *)
Lemma Layer_degenerate_raises_witness :
  degenerate (coords flat_layer) /\
  ~ returns (Layer_dimensions flat_layer) /\
  raises_assertion (Layer_dimensions flat_layer) /\
  raises_assertion (Layer_volume flat_layer) /\
  raises_assertion (LayerMinus_volume (OWindow flat_layer 100)) /\
  raises_assertion (Layer_scaled flat_layer 1).
Proof.
  assert (Hdeg : degenerate (coords flat_layer)) by (left; reflexivity).
  destruct (Layer_degenerate_raises flat_layer) as (Hiff & Hraise).
  destruct (Hraise Hdeg) as (Hd & Hv & _ & Hm & Hs).
  split; [exact Hdeg | ].
  split.
  - intros Hret. apply Hiff in Hret. destruct Hret as (Hx & _). discriminate Hx.
  - split; [exact Hd | split; [exact Hv | split; [ | exact (Hs 1)]]].
    apply (Hm (OWindow flat_layer 100) eq_refl).
Defined.

(** * Further properties of the code *)

(** ** Constructors *)

(** X1.  [CoordSet(a, b, c, d, e, f)] returns the box of the six values
    when none of them is negative, and raises [AssertionError] as soon
    as one of them is. *)
Theorem CoordSet_new_nonneg (a b c d e f : Z) :
  (0 <= a /\ 0 <= b /\ 0 <= c /\ 0 <= d /\ 0 <= e /\ 0 <= f ->
     CoordSet_new a b c d e f = Ok (box a b c d e f)) /\
  (a < 0 \/ b < 0 \/ c < 0 \/ d < 0 \/ e < 0 \/ f < 0 ->
     CoordSet_new a b c d e f = Raise (AssertionError "Coordinate shouldn't less than zero")).
Proof.
  unfold CoordSet_new, CoordSet___post_init__, assert_all_nonneg, py_assert, box. simpl.
  split.
  - intros (Ha & Hb & Hc & Hd & He & Hf).
    apply Z.leb_le in Ha, Hb, Hc, Hd, He, Hf.
    rewrite Ha, Hb, Hc, Hd, He, Hf. reflexivity.
  - intros Hneg.
    destruct (Z.leb_spec 0 a); [simpl | reflexivity].
    destruct (Z.leb_spec 0 b); [simpl | reflexivity].
    destruct (Z.leb_spec 0 c); [simpl | reflexivity].
    destruct (Z.leb_spec 0 d); [simpl | reflexivity].
    destruct (Z.leb_spec 0 e); [simpl | reflexivity].
    destruct (Z.leb_spec 0 f); [lia | reflexivity].
Qed.

(** X2.  [Dimension(axis, quantity)] returns an un-scaled Dimension
    exactly when the quantity is positive; a quantity that is zero or
    negative raises [AssertionError]. *)
Theorem Dimension_new_positive_only (a : Axis.t) (q : Z) :
  (returns (Dimension_new a q) <-> 0 < q) /\
  (0 < q -> Dimension_new a q = Ok (dimension a q)) /\
  (q <= 0 -> Dimension_new a q = Raise (AssertionError "Dimension must be > 0")).
Proof.
  split; [split | split].
  - intros [d Hd]. apply Dimension_new_inv in Hd. tauto.
  - intros Hq. eexists. apply (Dimension_new_pos a q Hq).
  - apply Dimension_new_pos.
  - apply Dimension_new_nonpos.
Qed.

(** ** Area, and how the geometry depends on the box *)

Section Geometry.

Context {price : Type}.
Implicit Types (l : Layer price) (o : LayerObject price).

Lemma Layer_area_face l (s : Side.t) :
  exterior l = Member s -> Layer_area l = Ok (face_area s (coords l)).
Proof.
  intros Hs. unfold Layer_area. rewrite Hs. destruct s; reflexivity.
Qed.

Lemma face_area_nonneg (s : Side.t) (c : CoordSet) : 0 <= face_area s c.
Proof.
  destruct (extents_nonneg c) as (Hx & Hy & Hz).
  destruct s; simpl; apply Z.mul_nonneg_nonneg; assumption.
Qed.

(** X3.  [area()] returns on every box, flat ones included, when the
    exterior is one of the six sides: the product of the two extents
    that span the face, never negative, and the same for the two
    opposite sides.  An exterior that is no member of [Side] raises
    [AssertionError]. *)
Theorem Layer_area_sides l :
  (forall s, exterior l = Member s ->
     Layer_area l = Ok (face_area s (coords l)) /\ 0 <= face_area s (coords l)) /\
  (forall a, exterior l = NonMember a ->
     Layer_area l = Raise (AssertionError "Exterior argument must belong to")) /\
  face_area Side.FRONT (coords l) = face_area Side.REAR (coords l) /\
  face_area Side.LEFT (coords l) = face_area Side.RIGHT (coords l) /\
  face_area Side.TOP (coords l) = face_area Side.BOTTOM (coords l).
Proof.
  split; [ | split; [ | repeat split]].
  - intros s Hs. split; [apply (Layer_area_face l s Hs) | apply face_area_nonneg].
  - intros a Ha. unfold Layer_area. rewrite Ha. reflexivity.
Qed.

(** X4.  On a box of positive extents the volume of a Layer is its
    [area()] times the extent of the box along the normal of its
    exterior side. *)
Theorem Layer_volume_area_depth l (s : Side.t) :
  positive_extents (coords l) ->
  exterior l = Member s ->
  exists a v,
    Layer_area l = Ok a /\ Layer_volume l = Ok v /\
    v = a * normal_extent s (coords l).
Proof.
  intros Hpos Hs. exists (face_area s (coords l)), (box_volume (coords l)).
  split; [apply (Layer_area_face l s Hs) | ].
  split; [apply (Layer_volume_positive l Hpos) | ].
  unfold box_volume. destruct s; simpl; ring.
Qed.

Lemma Layer_dimensions_same_extents l l' :
  same_extents (coords l) (coords l') -> Layer_dimensions l = Layer_dimensions l'.
Proof.
  intros (Hx & Hy & Hz). unfold Layer_dimensions.
  fold (extent_x (coords l)) (extent_y (coords l)) (extent_z (coords l)).
  fold (extent_x (coords l')) (extent_y (coords l')) (extent_z (coords l')).
  rewrite Hx, Hy, Hz. reflexivity.
Qed.

(** X5.  [dimensions()], [volume], [scaled(scale)] and [area()] see the
    box only through its three absolute extents: two Layers whose boxes
    have the same extents get the same results, whichever corner comes
    first and wherever the boxes lie. *)
Theorem Layer_geometry_same_extents l l' :
  same_extents (coords l) (coords l') ->
  Layer_dimensions l = Layer_dimensions l' /\
  Layer_volume l = Layer_volume l' /\
  (forall scale, Layer_scaled l scale = Layer_scaled l' scale) /\
  (exterior l = exterior l' -> Layer_area l = Layer_area l').
Proof.
  intros Hsame. pose proof (Layer_dimensions_same_extents l l' Hsame) as Hd.
  split; [exact Hd | split; [ | split]].
  - unfold Layer_volume. rewrite Hd. reflexivity.
  - intros scale. unfold Layer_scaled. rewrite Hd. reflexivity.
  - intros He. destruct Hsame as (Hx & Hy & Hz). unfold Layer_area. rewrite He.
    fold (extent_x (coords l)) (extent_y (coords l)) (extent_z (coords l)).
    fold (extent_x (coords l')) (extent_y (coords l')) (extent_z (coords l')).
    rewrite Hx, Hy, Hz. reflexivity.
Qed.

Lemma swap_corners_same_extents (c : CoordSet) : same_extents c (swap_corners c).
Proof.
  unfold same_extents, extent_x, extent_y, extent_z, swap_corners. simpl. lia.
Qed.

End Geometry.

(** ** Scaled dimensions of a Layer *)

Section Scaling.

Context {price : Type}.
Implicit Types (l : Layer price).

Lemma Dimension_scaled_fresh (a : Axis.t) (q scale : Z) :
  0 < scale ->
  Dimension_scaled (dimension a q) scale =
    Ok (q * scale, {| axis := a; quantity := q; _is_scaled := true |}).
Proof.
  intros Hs. unfold Dimension_scaled, py_assert.
  apply Z.ltb_lt in Hs. rewrite Hs. reflexivity.
Qed.

Lemma Layer_scaled_positive l (scale : Z) :
  0 < scale -> positive_extents (coords l) ->
  Layer_scaled l scale =
    Ok [ dimension Axis.L (Z.max (extent_x (coords l)) (extent_y (coords l)) * scale);
         dimension Axis.W (Z.min (extent_x (coords l)) (extent_y (coords l)) * scale);
         dimension Axis.H (extent_z (coords l) * scale) ].
Proof.
  intros Hs Hpos. pose proof Hpos as (Hx & Hy & Hz).
  unfold Layer_scaled. rewrite (Layer_dimensions_positive l Hpos).
  unfold py_assert. rewrite (proj2 (Z.ltb_lt 0 scale) Hs). simpl.
  fold (dimension Axis.L (Z.max (extent_x (coords l)) (extent_y (coords l)))).
  fold (dimension Axis.W (Z.min (extent_x (coords l)) (extent_y (coords l)))).
  fold (dimension Axis.H (extent_z (coords l))).
  rewrite !Dimension_scaled_fresh by exact Hs. simpl.
  rewrite !Dimension_new_pos by (apply Z.mul_pos_pos; lia). reflexivity.
Qed.

(** X6.  [scaled(scale)] raises [AssertionError] for a scale that is
    zero or negative, whatever the box.  For a positive scale on a box
    of positive extents it returns three un-scaled Dimensions, the
    length, width and height of [dimensions()] each multiplied by the
    scale, so the width still does not exceed the length and the product
    of the three is the volume times the cube of the scale. *)
Theorem Layer_scaled_values l (scale : Z) :
  (scale <= 0 -> Layer_scaled l scale = Raise (AssertionError "Scale must be > 0")) /\
  (0 < scale -> positive_extents (coords l) ->
     exists ql qw qh,
       Layer_dimensions l = Ok [dimension Axis.L ql; dimension Axis.W qw; dimension Axis.H qh] /\
       Layer_scaled l scale =
         Ok [dimension Axis.L (ql * scale); dimension Axis.W (qw * scale);
             dimension Axis.H (qh * scale)] /\
       qw * scale <= ql * scale /\
       Layer_volume l = Ok (ql * qw * qh) /\
       (ql * scale) * (qw * scale) * (qh * scale) = scale * scale * scale * (ql * qw * qh)).
Proof.
  split.
  - intros Hs. unfold Layer_scaled, py_assert.
    apply Z.ltb_ge in Hs. rewrite Hs. reflexivity.
  - intros Hs Hpos. pose proof Hpos as (Hx & Hy & Hz).
    eexists _, _, _. split; [apply (Layer_dimensions_positive l Hpos) | ].
    split; [apply (Layer_scaled_positive l scale Hs Hpos) | ].
    split; [apply Z.mul_le_mono_nonneg_r; lia | ].
    split; [ | ring].
    rewrite (Layer_volume_positive l Hpos). f_equal.
    destruct (Z.max_spec (extent_x (coords l)) (extent_y (coords l))) as [[? ->] | [? ->]];
    destruct (Z.min_spec (extent_x (coords l)) (extent_y (coords l))) as [[? ->] | [? ->]];
    try lia; ring.
Qed.

(** X7.  With the default scale 1, [scaled()] is [dimensions()]: the
    same three Dimensions on a box of positive extents, the same
    exception on a flat one. *)
Theorem Layer_scaled_default l : Layer_scaled l 1 = Layer_dimensions l.
Proof.
  destruct (positive_extents_dec (coords l)) as [Hpos | Hdeg].
  - rewrite (Layer_scaled_positive l 1 ltac:(lia) Hpos), (Layer_dimensions_positive l Hpos).
    rewrite !Z.mul_1_r. reflexivity.
  - unfold Layer_scaled. rewrite (Layer_dimensions_degenerate l Hdeg). reflexivity.
Qed.

End Scaling.

(** ** Cost of openings and of flat or mis-configured layers *)

Section Costs.

Context {price : Type}.
Variable int_mul_price : Z -> price -> price.
Variable price_mul_int : price -> Z -> price.
Implicit Types (l : Layer price) (o : LayerObject price).

(** X8.  [Window.cost()] and [Door.cost()] are the instance's own price
    times [area()], the same for both classes and whatever the material
    and its unit; they return on flat boxes too, and raise only when the
    exterior is no member of [Side]. *)
Theorem Opening_cost_by_area l (p : price) :
  cost int_mul_price price_mul_int (OWindow l p) = cost int_mul_price price_mul_int (ODoor l p) /\
  (forall m, cost int_mul_price price_mul_int (OWindow (with_material l m) p) =
             cost int_mul_price price_mul_int (OWindow l p)) /\
  (forall s, exterior l = Member s ->
     cost int_mul_price price_mul_int (OWindow l p) = Ok (price_mul_int p (face_area s (coords l)))) /\
  (forall a, exterior l = NonMember a ->
     cost int_mul_price price_mul_int (OWindow l p) =
       Raise (AssertionError "Exterior argument must belong to")).
Proof.
  split; [reflexivity | split; [reflexivity | split]].
  - intros s Hs. simpl. rewrite (Layer_area_face l s Hs). reflexivity.
  - intros a Ha. simpl. unfold Layer_area. rewrite Ha. reflexivity.
Qed.

(** X9.  A plain LayerMinus inherits [Layer.cost].  With a material
    priced by volume the method multiplies the attribute [volume], a
    bound method on this class, by the price: [TypeError] on every box.
    With any other unit the result is the one of a Layer with the same
    fields. *)
Theorem LayerMinus_cost_inherited l :
  (price_quantity (material l) = Member Quantity.M3 ->
     cost int_mul_price price_mul_int (OLayerMinus l) =
       Raise (TypeError "unsupported operand type(s) for *")) /\
  (price_quantity (material l) <> Member Quantity.M3 ->
     cost int_mul_price price_mul_int (OLayerMinus l) =
     cost int_mul_price price_mul_int (OLayer l)).
Proof.
  unfold cost, Layer_cost. simpl fields. split.
  - intros ->. reflexivity.
  - intros Hne. destruct (price_quantity (material l)) as [[ | | ] | a];
      [contradiction Hne; reflexivity | reflexivity ..].
Qed.


End Costs.

(** ** Calling [volume], and adding dimensions *)

Section Calls.

Context {price : Type}.
Implicit Types (l : Layer price) (o : LayerObject price).

(** X11.  [o.volume()] returns only on an opening whose box has positive
    extents, and the result is then negative.  On a base Layer the
    attribute is already the integer, so the call raises: [TypeError]
    on a box of positive extents, the [AssertionError] of the property
    on a flat one. *)
Theorem call_volume_openings_only o :
  (is_LayerMinus o = false -> raises (call_volume o)) /\
  (is_LayerMinus o = false -> positive_extents (coords (fields o)) ->
     getattr_volume o = Ok (VInt (box_volume (coords (fields o)))) /\
     call_volume o = Raise (TypeError "object is not callable")) /\
  (is_LayerMinus o = true -> positive_extents (coords (fields o)) ->
     call_volume o = Ok (VInt (- box_volume (coords (fields o)))) /\
     - box_volume (coords (fields o)) < 0) /\
  (returns (call_volume o) ->
     is_LayerMinus o = true /\ positive_extents (coords (fields o))).
Proof.
  assert (Hbase : forall l, raises (call_volume (OLayer l))).
  { intros l. unfold call_volume, getattr_volume.
    destruct (Layer_volume l); simpl; eexists; reflexivity. }
  assert (Hflat : forall o', is_LayerMinus o' = true ->
            ~ positive_extents (coords (fields o')) -> raises (call_volume o')).
  { intros o' Ho' Hdeg. rewrite (call_volume_LayerMinus o' Ho'). unfold LayerMinus_volume.
    rewrite (Layer_volume_degenerate _ Hdeg). eexists. reflexivity. }
  split; [ | split; [ | split]].
  - intros Ho. destruct o; try discriminate Ho. apply Hbase.
  - intros Ho Hpos. destruct o as [l | l | l p | l p]; try discriminate Ho.
    simpl in Hpos. unfold call_volume, getattr_volume.
    rewrite (Layer_volume_positive l Hpos). split; reflexivity.
  - intros Ho Hpos. split.
    + rewrite (call_volume_LayerMinus o Ho). unfold LayerMinus_volume.
      rewrite (Layer_volume_positive _ Hpos). reflexivity.
    + destruct Hpos as (Hx & Hy & Hz). unfold box_volume.
      assert (0 < extent_x (coords (fields o)) * extent_y (coords (fields o)) * extent_z (coords (fields o)))
        by (apply Z.mul_pos_pos; [apply Z.mul_pos_pos | ]; assumption).
      lia.
  - intros Hret. destruct (is_LayerMinus o) eqn:Ho.
    + split; [reflexivity | ].
      destruct (positive_extents_dec (coords (fields o))) as [Hpos | Hdeg]; [exact Hpos | ].
      exfalso. apply (raises_not_returns _ (Hflat o Ho Hdeg) Hret).
    + exfalso. destruct o; try discriminate Ho.
      apply (raises_not_returns _ (Hbase _) Hret).
Qed.

(** X12.  [a + b] and [b + a] are the same on any two Dimensions: the
    same Dimension when the axes agree and the sum of the quantities is
    positive, the same exception otherwise. *)
Theorem Dimension_add_comm (a b : Dimension) :
  py_add (VDimension a) (VDimension b : value price) =
  py_add (VDimension b) (VDimension a : value price).
Proof.
  unfold py_add, Dimension___add__, py_assert.
  destruct a as [[ | | ] qa sa], b as [[ | | ] qb sb]; simpl;
    try reflexivity; rewrite (Z.add_comm qb qa); reflexivity.
Qed.

(** X13.  On Dimensions of positive quantity, as the constructor makes
    them, addition is associative: [(a + b) + c] and [a + (b + c)] are
    the same Dimension when the three axes agree, and both raise the
    assertion on the axes when they do not. *)
Theorem Dimension_add_assoc (a b c : Dimension) :
  0 < quantity a -> 0 < quantity b -> 0 < quantity c ->
  (x <- py_add (VDimension a) (VDimension b : value price) ;; py_add x (VDimension c)) =
  (y <- py_add (VDimension b) (VDimension c : value price) ;; py_add (VDimension a) y).
Proof.
  destruct a as [aa qa sa], b as [ab qb sb], c as [ac qc sc]. simpl.
  intros Ha Hb Hc.
  assert (Hab : (0 <? qa + qb) = true) by (apply Z.ltb_lt; lia).
  assert (Hbc : (0 <? qb + qc) = true) by (apply Z.ltb_lt; lia).
  assert (Habc : (0 <? qa + (qb + qc)) = true) by (apply Z.ltb_lt; lia).
  unfold py_add, Dimension___add__, Dimension_new, Dimension___post_init__, py_assert.
  destruct aa, ab, ac; simpl;
    rewrite ?Hab, ?Hbc; simpl; rewrite <- ?Z.add_assoc, ?Habc; reflexivity.
Qed.

(** X14.  The sum of two Dimensions is a new, un-scaled one even when
    both operands have been scaled: on operands of the same axis and
    positive quantity it accepts [scaled(factor)] for every positive
    factor and returns the sum of the quantities times the factor. *)
Theorem Dimension_add_then_scaled (a b : Dimension) (factor : Z) :
  axis a = axis b -> 0 < quantity a -> 0 < quantity b -> 0 < factor ->
  exists s,
    Dimension___add__ a (VDimension b : value price) = Ok s /\
    _is_scaled s = false /\
    Dimension_scaled s factor =
      Ok ((quantity a + quantity b) * factor,
          {| axis := axis a; quantity := quantity a + quantity b; _is_scaled := true |}).
Proof.
  intros Hax Ha Hb Hf.
  exists (dimension (axis a) (quantity a + quantity b)).
  split; [ | split; [reflexivity | apply (Dimension_scaled_fresh _ _ _ Hf)]].
  unfold Dimension___add__, py_assert.
  rewrite (proj2 (Axis_eqb_eq (axis a) (axis b)) Hax). simpl.
  apply Dimension_new_pos. lia.
Qed.

End Calls.

(** ** Building a wall and summing its volume *)

Section WallVolume.

Context {price : Type}.
Implicit Types (l : Layer price) (o : LayerObject price) (w : Wall price).

Lemma mapM_app {A B : Type} (f : A -> result B) (xs ys : list A) :
  mapM f (xs ++ ys)%list = (a <- mapM f xs ;; b <- mapM f ys ;; Ok (a ++ b)%list).
Proof.
  induction xs as [ | x rest IH]; simpl.
  - destruct (mapM f ys); reflexivity.
  - destruct (f x) as [y | e]; simpl; [ | reflexivity].
    rewrite IH. destruct (mapM f rest) as [a | e]; simpl; [ | reflexivity].
    destruct (mapM f ys); reflexivity.
Qed.

Lemma mapM_raises {A B : Type} (f : A -> result B) (xs : list A) (x : A) :
  In x xs -> raises (f x) -> raises (mapM f xs).
Proof.
  induction xs as [ | y rest IH]; intros Hin Hx; [destruct Hin | ].
  simpl. destruct Hin as [-> | Hin].
  - apply bind_raises, Hx.
  - destruct (f y) as [b | e]; simpl; [ | eexists; reflexivity].
    apply bind_raises, IH; assumption.
Qed.

Lemma py_sum_from_app (acc : value price) (vs ws : list (value price)) :
  py_sum_from acc (vs ++ ws)%list = (a <- py_sum_from acc vs ;; py_sum_from a ws).
Proof.
  revert acc. induction vs as [ | v rest IH]; intros acc; simpl; [reflexivity | ].
  destruct (py_add acc v) as [acc' | e]; simpl; [apply IH | reflexivity].
Qed.

Lemma filter_not_instance (layers : list (LayerObject price)) :
  filter (fun layer => negb (isinstance_Layer layer)) layers = [].
Proof.
  induction layers as [ | o rest IH]; simpl; [reflexivity | exact IH].
Qed.

Lemma fold_left_add_nonneg (ns : list Z) (acc : Z) :
  Forall (fun n => 0 <= n) ns -> 0 <= acc -> 0 <= fold_left Z.add ns acc.
Proof.
  revert acc. induction ns as [ | n rest IH]; intros acc Hall Hacc; simpl; [exact Hacc | ].
  inversion Hall as [ | ? ? Hn Hrest]; subst. apply IH; [exact Hrest | lia].
Qed.

Lemma mapM_getattr_volume_solid (layers : list (LayerObject price)) :
  Forall solid layers ->
  mapM getattr_volume layers =
    Ok (map VInt (map (fun o => box_volume (coords (fields o))) layers)).
Proof.
  induction 1 as [ | o rest [Ho Hpos] Hrest IH]; simpl; [reflexivity | ].
  destruct o as [l | l | l p | l p]; try discriminate Ho.
  simpl in Hpos |- *. rewrite (Layer_volume_positive l Hpos). simpl.
  rewrite IH. reflexivity.
Qed.

(** X15.  [Wall(name, layers)] raises [AssertionError] on an empty list
    and returns the wall of that name and those layers on any other. *)
Theorem Wall_new_nonempty (n : string) (layers : list (LayerObject price)) :
  (layers = [] ->
     Wall_new n layers = Raise (AssertionError "At least one layer should be added to Wall")) /\
  (layers <> [] -> Wall_new n layers = Ok {| w_name := n; _layers := layers |}).
Proof.
  split.
  - intros ->. reflexivity.
  - intros Hne. destruct layers as [ | o rest]; [contradiction Hne; reflexivity | ].
    unfold Wall_new, Wall___post_init__. cbv zeta. simpl _layers.
    rewrite filter_not_instance. reflexivity.
Qed.

(** X16.  [add_layer(layer)] always returns; the layer is appended after
    the ones the wall holds, which keep their order, and the name of the
    wall is kept.  When [volume()] of the wall was [v] and the new layer
    is a base Layer of volume [x], [volume()] is [v + x] afterwards. *)
Theorem Wall_add_layer_appends w o :
  exists w',
    Wall_add_layer w o = Ok w' /\
    w_name w' = w_name w /\
    _layers w' = (_layers w ++ [o])%list /\
    List.length (_layers w') = S (List.length (_layers w)) /\
    (forall v x, Wall_volume w = Ok (VInt v) -> getattr_volume o = Ok (VInt x) ->
       Wall_volume w' = Ok (VInt (v + x))).
Proof.
  eexists. split; [reflexivity | ]. simpl.
  split; [reflexivity | split; [reflexivity | split]].
  - rewrite length_app. simpl. lia.
  - intros v x Hv Hx. unfold Wall_volume in *. simpl.
    rewrite mapM_app. destruct (mapM getattr_volume (_layers w)) as [values | e]; simpl in *;
      [ | discriminate Hv].
    rewrite Hx. simpl. unfold py_sum in *. rewrite py_sum_from_app, Hv. reflexivity.
Qed.

(** X17.  [volume()] of a wall returns exactly when every entry is a base
    Layer on a box of positive extents (an empty wall included); the
    result is then the sum of the products of the three extents, and is
    never negative. *)
Theorem Wall_volume_returns_iff w :
  (returns (Wall_volume w) <-> Forall solid (_layers w)) /\
  (Forall solid (_layers w) ->
     Wall_volume w =
       Ok (VInt (fold_left Z.add (map (fun o => box_volume (coords (fields o))) (_layers w)) 0)) /\
     0 <= fold_left Z.add (map (fun o => box_volume (coords (fields o))) (_layers w)) 0).
Proof.
  assert (Hsum : Forall solid (_layers w) ->
            Wall_volume w =
              Ok (VInt (fold_left Z.add (map (fun o => box_volume (coords (fields o))) (_layers w)) 0))).
  { intros Hall. unfold Wall_volume. rewrite (mapM_getattr_volume_solid _ Hall). simpl.
    apply py_sum_from_ints. }
  split; [split | ].
  - intros Hret. apply Forall_forall. intros o Hin.
    destruct (is_LayerMinus o) eqn:Ho.
    + exfalso. apply (raises_not_returns _ (Wall_volume_opening_raises w o Hin Ho) Hret).
    + split; [exact Ho | ].
      destruct (positive_extents_dec (coords (fields o))) as [Hpos | Hdeg]; [exact Hpos | ].
      exfalso. apply (raises_not_returns (Wall_volume w)); [ | exact Hret].
      unfold Wall_volume. apply bind_raises. apply (mapM_raises _ _ o Hin).
      destruct o as [l | l | l p | l p]; try discriminate Ho.
      simpl in Hdeg |- *. rewrite (Layer_volume_degenerate l Hdeg). eexists. reflexivity.
  - intros Hall. eexists. apply (Hsum Hall).
  - intros Hall. split; [apply (Hsum Hall) | ].
    apply fold_left_add_nonneg; [ | lia].
    apply Forall_forall. intros n Hn. apply in_map_iff in Hn. destruct Hn as (o & <- & _).
    destruct (extents_nonneg (coords (fields o))) as (Hx & Hy & Hz).
    unfold box_volume. apply Z.mul_nonneg_nonneg; [apply Z.mul_nonneg_nonneg | ]; assumption.
Qed.

(** X18.  [dimensions()] of a wall returns only on a wall without
    layers, which [remove_layer] can leave behind, and then gives the
    three integers 0. *)
Theorem Wall_dimensions_returns_iff w :
  (returns (Wall_dimensions w) <-> _layers w = []) /\
  (_layers w = [] -> Wall_dimensions w = Ok [VInt 0; VInt 0; VInt 0]).
Proof.
  destruct w as [n layers]. simpl. split; [split | ].
  - intros Hret. destruct layers as [ | o rest]; [reflexivity | ].
    exfalso. apply (raises_not_returns _ (Wall_dimensions_nonempty_raises n o rest) Hret).
  - intros ->. eexists. reflexivity.
  - intros ->. reflexivity.
Qed.

End WallVolume.

(** ** Removing a layer by name *)

Section Removal.

Context {price : Type}.
Variable price_eqb : price -> price -> bool.
Implicit Types (o x : LayerObject price) (w : Wall price).

(** Two instances that compare equal have the same name, whatever the
    comparison of prices answers. *)
Lemma LayerObject_eq_name o x :
  LayerObject___eq__ price_eqb o x = true -> name (fields o) = name (fields x).
Proof.
  destruct o as [a | a | a p | a p], x as [b | b | b q | b q]; simpl;
    try discriminate; unfold Layer_fields_eqb; intros E;
    repeat (apply andb_true_iff in E; destruct E as [E _]);
    apply String.eqb_eq; exact E.
Qed.

Lemma py_list_remove_at {A : Type} (eqb : A -> A -> bool) (x : A) (pre post : list A) :
  (forall item, In item pre -> eqb item x = false) ->
  py_list_remove eqb x (List.length pre) (pre ++ x :: post)%list = Ok (pre ++ post)%list.
Proof.
  induction pre as [ | item rest IH]; intros Hpre; simpl; [reflexivity | ].
  rewrite (Hpre item (or_introl eq_refl)). simpl.
  rewrite IH; [reflexivity | ].
  intros item' Hin. apply Hpre. right. exact Hin.
Qed.

Lemma first_index_at {A : Type} (p : A -> bool) (x : A) (pre post : list A) :
  (forall item, In item pre -> p item = false) -> p x = true ->
  first_index p (pre ++ x :: post)%list = List.length pre /\
  filter p (pre ++ x :: post)%list = x :: filter p post.
Proof.
  intros Hpre Hx. induction pre as [ | item rest IH]; simpl.
  - rewrite Hx. split; reflexivity.
  - rewrite (Hpre item (or_introl eq_refl)).
    destruct IH as [Hi Hf]; [intros item' Hin; apply Hpre; right; exact Hin | ].
    rewrite Hi, Hf. split; reflexivity.
Qed.

Lemma first_name_split (layers : list (LayerObject price)) (n : string) :
  In n (map (fun o => name (fields o)) layers) ->
  exists pre x post,
    layers = (pre ++ x :: post)%list /\ name (fields x) = n /\
    forall item, In item pre -> name (fields item) <> n.
Proof.
  induction layers as [ | o rest IH]; intros Hin; [destruct Hin | ].
  destruct (string_dec (name (fields o)) n) as [Heq | Hne].
  - exists [], o, rest. split; [reflexivity | split; [exact Heq | ]]. intros item [].
  - destruct Hin as [Heq | Hin]; [contradiction | ].
    destruct (IH Hin) as (pre & x & post & -> & Hx & Hpre).
    exists (o :: pre), x, post. split; [reflexivity | split; [exact Hx | ]].
    intros item [<- | Hitem]; [exact Hne | apply (Hpre item Hitem)].
Qed.

Lemma filter_name_absent (layers : list (LayerObject price)) (n : string) :
  ~ In n (map (fun o => name (fields o)) layers) ->
  filter (fun o => String.eqb (name (fields o)) n) layers = [].
Proof.
  induction layers as [ | o rest IH]; intros Hnot; simpl; [reflexivity | ].
  destruct (String.eqb_spec (name (fields o)) n) as [Heq | Hne].
  - exfalso. apply Hnot. left. exact Heq.
  - apply IH. intros Hin. apply Hnot. right. exact Hin.
Qed.

Lemma Wall_remove_layer_at w (n : string) (pre post : list (LayerObject price)) x :
  _layers w = (pre ++ x :: post)%list ->
  name (fields x) = n ->
  (forall item, In item pre -> name (fields item) <> n) ->
  Wall_remove_layer price_eqb w n = Ok {| w_name := w_name w; _layers := (pre ++ post)%list |}.
Proof.
  intros Hl Hx Hpre. unfold Wall_remove_layer. cbv zeta. rewrite Hl.
  destruct (first_index_at (fun o => String.eqb (name (fields o)) n) x pre post) as [Hi Hf].
  - intros item Hin. apply String.eqb_neq. apply (Hpre item Hin).
  - apply String.eqb_eq. exact Hx.
  - rewrite Hf, Hi. simpl.
    rewrite py_list_remove_at; [reflexivity | ].
    intros item Hin. destruct (LayerObject___eq__ price_eqb item x) eqn:E; [ | reflexivity].
    exfalso. apply (Hpre item Hin). rewrite (LayerObject_eq_name item x E). exact Hx.
Qed.

(** X19.  [remove_layer(name)] removes the first layer of that name and
    nothing else: the layers before it and after it stay, in their
    order, also those after it that carry the same name, and the wall
    has one layer less. *)
Theorem Wall_remove_layer_first w (n : string) (pre post : list (LayerObject price)) x :
  _layers w = (pre ++ x :: post)%list ->
  name (fields x) = n ->
  (forall item, In item pre -> name (fields item) <> n) ->
  exists w',
    Wall_remove_layer price_eqb w n = Ok w' /\
    w_name w' = w_name w /\
    _layers w' = (pre ++ post)%list /\
    S (List.length (_layers w')) = List.length (_layers w).
Proof.
  intros Hl Hx Hpre. eexists. split; [apply (Wall_remove_layer_at w n pre post x Hl Hx Hpre) | ].
  simpl. split; [reflexivity | split; [reflexivity | ]].
  rewrite Hl, !length_app. simpl. lia.
Qed.

(** X20.  [remove_layer(name)] returns exactly when some layer of the
    wall has that name; when none has, it raises [AssertionError]. *)
Theorem Wall_remove_layer_returns_iff w (n : string) :
  (returns (Wall_remove_layer price_eqb w n) <-> In n (layer_names w)) /\
  (~ In n (layer_names w) ->
     Wall_remove_layer price_eqb w n = Raise (AssertionError "not found in the Wall layers")).
Proof.
  assert (Habsent : ~ In n (layer_names w) ->
            Wall_remove_layer price_eqb w n = Raise (AssertionError "not found in the Wall layers")).
  { intros Hnot. unfold Wall_remove_layer. cbv zeta.
    rewrite (filter_name_absent (_layers w) n Hnot). reflexivity. }
  split; [split | exact Habsent].
  - intros [w' Hw']. destruct (in_dec string_dec n (layer_names w)) as [Hin | Hnot]; [exact Hin | ].
    rewrite (Habsent Hnot) in Hw'. discriminate Hw'.
  - intros Hin. destruct (first_name_split (_layers w) n Hin) as (pre & x & post & Hl & Hx & Hpre).
    eexists. apply (Wall_remove_layer_at w n pre post x Hl Hx Hpre).
Qed.

(** X21.  Adding a layer whose name no layer of the wall carries and
    then removing that name gives the wall back. *)
Theorem Wall_add_then_remove w o :
  ~ In (name (fields o)) (layer_names w) ->
  (w' <- Wall_add_layer w o ;; Wall_remove_layer price_eqb w' (name (fields o))) = Ok w.
Proof.
  intros Hfresh. simpl.
  rewrite (Wall_remove_layer_at _ (name (fields o)) (_layers w) [] o); simpl.
  - rewrite app_nil_r. destruct w; reflexivity.
  - reflexivity.
  - reflexivity.
  - intros item Hin Heq. apply Hfresh. unfold layer_names. rewrite <- Heq.
    apply in_map_iff. exists item. split; [reflexivity | exact Hin].
Qed.

(** X22.  [remove_layer] does not keep what the constructor checks:
    removing the only layer of a wall leaves a wall without layers, a
    list that [Wall(name, layers)] refuses. *)
Theorem Wall_remove_layer_can_empty (n : string) o :
  exists w w',
    Wall_new n [o] = Ok w /\
    Wall_remove_layer price_eqb w (name (fields o)) = Ok w' /\
    _layers w' = [] /\
    raises (Wall_new n (_layers w')).
Proof.
  exists {| w_name := n; _layers := [o] |}, {| w_name := n; _layers := [] |}.
  split; [reflexivity | split; [ | split; [reflexivity | eexists; reflexivity]]].
  apply (Wall_remove_layer_at {| w_name := n; _layers := [o] |} (name (fields o)) [] [] o);
    [reflexivity | reflexivity | intros item []].
Qed.

End Removal.

(** ** Iterating over a CoordSet *)

(** X23.  After [iter(c)], every [next] returns [c.x1] and leaves the
    iterator where it is: a loop over a CoordSet receives [x1] again and
    again and never comes to an end. *)
Theorem CoordSet_iteration_repeats_x1 (c : CoordSet) (n : nat) :
  CoordSet___next__ (CoordSet___iter__ c) = Ok (x1 c, CoordSet___iter__ c) /\
  py_take n (CoordSet___iter__ c) = Ok (repeat (x1 c) n).
Proof.
  assert (Hnext : CoordSet___next__ (CoordSet___iter__ c) = Ok (x1 c, CoordSet___iter__ c))
    by reflexivity.
  split; [exact Hnext | ].
  induction n as [ | k IH]; [reflexivity | ].
  cbn [py_take repeat]. rewrite Hnext. cbn [bind snd fst]. rewrite IH. reflexivity.
Qed.

(** ** The further properties at concrete inputs *)

Lemma CoordSet_new_nonneg_witness :
  CoordSet_new 0 0 0 2 2 2 = Ok (box 0 0 0 2 2 2) /\
  CoordSet_new 0 0 (-1) 2 2 2 = Raise (AssertionError "Coordinate shouldn't less than zero").
Proof.
  split.
  - apply (proj1 (CoordSet_new_nonneg 0 0 0 2 2 2)). lia.
  - apply (proj2 (CoordSet_new_nonneg 0 0 (-1) 2 2 2)). lia.
Defined.

Lemma Dimension_new_positive_only_witness :
  Dimension_new Axis.L 5 = Ok (dimension Axis.L 5) /\
  Dimension_new Axis.L 0 = Raise (AssertionError "Dimension must be > 0") /\
  ~ returns (Dimension_new Axis.W (-2)).
Proof.
  split; [ | split].
  - apply (proj1 (proj2 (Dimension_new_positive_only Axis.L 5))). reflexivity.
  - apply (proj2 (proj2 (Dimension_new_positive_only Axis.L 0))). discriminate.
  - intros Hret. apply (proj1 (Dimension_new_positive_only Axis.W (-2))) in Hret.
    discriminate Hret.
Defined.

(** The flat box (0,0,0,0,1,1) seen from the front has the area 0. *)
Lemma Layer_area_sides_witness :
  Layer_area flat_layer = Ok 0 /\
  Layer_area layer_no_side = Raise (AssertionError "Exterior argument must belong to").
Proof.
  split.
  - apply (proj1 (proj1 (Layer_area_sides flat_layer) Side.FRONT eq_refl)).
  - apply (proj1 (proj2 (Layer_area_sides layer_no_side)) (AStr "xz-") eq_refl).
Defined.

(** The box of extents (2, 7, 2) from the front: area 4, depth 7,
    volume 28. *)
Lemma Layer_volume_area_depth_witness :
  positive_extents (coords layer_area_4) /\
  exterior layer_area_4 = Member Side.FRONT /\
  Layer_area layer_area_4 = Ok 4 /\
  Layer_volume layer_area_4 = Ok 28 /\
  normal_extent Side.FRONT (coords layer_area_4) = 7 /\
  exists a v,
    Layer_area layer_area_4 = Ok a /\ Layer_volume layer_area_4 = Ok v /\
    v = a * normal_extent Side.FRONT (coords layer_area_4).
Proof.
  assert (Hpos : positive_extents (coords layer_area_4)) by (repeat split).
  split; [exact Hpos | ].
  split; [reflexivity | split; [reflexivity | split; [reflexivity | split; [reflexivity | ]]]].
  exact (Layer_volume_area_depth layer_area_4 Side.FRONT Hpos eq_refl).
Defined.

Lemma Layer_geometry_same_extents_witness :
  same_extents (coords layer_6) (coords layer_6_moved) /\
  Layer_dimensions layer_6 = Layer_dimensions layer_6_moved /\
  Layer_volume layer_6_moved = Ok 6 /\
  Layer_area layer_6 = Layer_area layer_6_moved.
Proof.
  assert (Hsame : same_extents (coords layer_6) (coords layer_6_moved)) by (repeat split).
  destruct (Layer_geometry_same_extents layer_6 layer_6_moved Hsame) as (Hd & Hv & _ & Ha).
  split; [exact Hsame | split; [exact Hd | split; [ | exact (Ha eq_refl)]]].
  rewrite <- Hv. reflexivity.
Defined.

Lemma Layer_scaled_values_witness :
  Layer_scaled layer_6 0 = Raise (AssertionError "Scale must be > 0") /\
  exists ql qw qh,
    Layer_dimensions layer_6 = Ok [dimension Axis.L ql; dimension Axis.W qw; dimension Axis.H qh] /\
    Layer_scaled layer_6 3 =
      Ok [dimension Axis.L (ql * 3); dimension Axis.W (qw * 3); dimension Axis.H (qh * 3)] /\
    qw * 3 <= ql * 3 /\
    Layer_volume layer_6 = Ok (ql * qw * qh) /\
    (ql * 3) * (qw * 3) * (qh * 3) = 3 * 3 * 3 * (ql * qw * qh).
Proof.
  split.
  - apply (proj1 (Layer_scaled_values layer_6 0)). discriminate.
  - apply (proj2 (Layer_scaled_values layer_6 3)); [reflexivity | repeat split].
Defined.

(** A window on a flat box costs its price times the area 0; a plain
    LayerMinus priced by area costs what the Layer costs. *)
Lemma Opening_cost_by_area_witness :
  cost Z.mul Z.mul (OWindow flat_layer 100) = Ok 0 /\
  cost Z.mul Z.mul (OWindow layer_area_4 100) = Ok 400 /\
  cost Z.mul Z.mul (ODoor layer_no_side 60) =
    Raise (AssertionError "Exterior argument must belong to").
Proof.
  split; [ | split].
  - apply (proj1 (proj2 (proj2 (Opening_cost_by_area Z.mul Z.mul flat_layer 100))) Side.FRONT eq_refl).
  - apply (proj1 (proj2 (proj2 (Opening_cost_by_area Z.mul Z.mul layer_area_4 100))) Side.FRONT eq_refl).
  - rewrite <- (proj1 (Opening_cost_by_area Z.mul Z.mul layer_no_side 60)).
    apply (proj2 (proj2 (proj2 (Opening_cost_by_area Z.mul Z.mul layer_no_side 60))) (AStr "xz-") eq_refl).
Defined.

Lemma LayerMinus_cost_inherited_witness :
  cost Z.mul Z.mul (OLayerMinus layer_6) = Raise (TypeError "unsupported operand type(s) for *") /\
  cost Z.mul Z.mul (OLayer layer_6) = Ok 60 /\
  cost Z.mul Z.mul (OLayerMinus layer_area_4) = Ok 44.
Proof.
  split; [ | split; [reflexivity | ]].
  - apply (proj1 (LayerMinus_cost_inherited Z.mul Z.mul layer_6) eq_refl).
  - rewrite (proj2 (LayerMinus_cost_inherited Z.mul Z.mul layer_area_4)); [reflexivity | discriminate].
Defined.


Lemma call_volume_openings_only_witness :
  call_volume window_5 = Ok (VInt (- 5)) /\
  getattr_volume (OLayer layer_6) = Ok (VInt 6) /\
  call_volume (OLayer layer_6) = Raise (TypeError "object is not callable") /\
  raises (call_volume (OLayer flat_layer)).
Proof.
  split; [ | split; [ | split]].
  - apply (proj1 (proj2 (proj2 (call_volume_openings_only window_5)))); [reflexivity | repeat split].
  - apply (proj1 (proj2 (call_volume_openings_only (OLayer layer_6)))); [reflexivity | repeat split].
  - apply (proj1 (proj2 (call_volume_openings_only (OLayer layer_6)))); [reflexivity | repeat split].
  - apply (proj1 (call_volume_openings_only (OLayer flat_layer))). reflexivity.
Defined.

Lemma Dimension_add_assoc_witness :
  (x <- py_add (VDimension (dimension Axis.L 1)) (VDimension (dimension Axis.L 2) : value Z) ;;
   py_add x (VDimension (dimension Axis.L 3))) = Ok (VDimension (dimension Axis.L 6)) /\
  (y <- py_add (VDimension (dimension Axis.L 2)) (VDimension (dimension Axis.L 3) : value Z) ;;
   py_add (VDimension (dimension Axis.L 1)) y) = Ok (VDimension (dimension Axis.L 6)).
Proof.
  split; [reflexivity | ].
  rewrite <- (Dimension_add_assoc (price := Z) (dimension Axis.L 1) (dimension Axis.L 2)
                (dimension Axis.L 3)); reflexivity.
Defined.

(** Two Dimensions that have both been scaled: their sum can be. *)
Lemma Dimension_add_then_scaled_witness :
  raises_assertion (Dimension_scaled (scaled_dimension Axis.L 3) 2) /\
  exists s,
    Dimension___add__ (scaled_dimension Axis.L 3) (VDimension (scaled_dimension Axis.L 4) : value Z) = Ok s /\
    _is_scaled s = false /\
    Dimension_scaled s 2 = Ok (14, scaled_dimension Axis.L 7).
Proof.
  split; [eexists; reflexivity | ].
  apply (Dimension_add_then_scaled (price := Z) (scaled_dimension Axis.L 3) (scaled_dimension Axis.L 4) 2);
    reflexivity.
Defined.

Lemma Wall_new_nonempty_witness :
  Wall_new "nord" ([] : list (LayerObject Z)) =
    Raise (AssertionError "At least one layer should be added to Wall") /\
  Wall_new "nord" [OLayer layer_10; OLayer layer_20] = Ok wall_10_20.
Proof.
  split.
  - apply (proj1 (Wall_new_nonempty "nord" ([] : list (LayerObject Z))) eq_refl).
  - apply (proj2 (Wall_new_nonempty "nord" [OLayer layer_10; OLayer layer_20])). discriminate.
Defined.

(** The wall of volume 30 and one more Layer of volume 6. *)
Lemma Wall_add_layer_appends_witness :
  Wall_volume wall_10_20 = Ok (VInt 30) /\
  getattr_volume (OLayer layer_6) = Ok (VInt 6) /\
  exists w',
    Wall_add_layer wall_10_20 (OLayer layer_6) = Ok w' /\
    _layers w' = [OLayer layer_10; OLayer layer_20; OLayer layer_6] /\
    Wall_volume w' = Ok (VInt 36).
Proof.
  split; [reflexivity | split; [reflexivity | ]].
  destruct (Wall_add_layer_appends wall_10_20 (OLayer layer_6)) as (w' & Hadd & _ & Hl & _ & Hv).
  exists w'. split; [exact Hadd | split; [exact Hl | ]].
  exact (Hv 30 6 eq_refl eq_refl).
Defined.

Lemma Wall_volume_returns_iff_witness :
  Forall solid (_layers wall_10_20) /\
  Wall_volume wall_10_20 = Ok (VInt 30) /\
  ~ Forall solid (_layers wall_10_20_m5) /\
  ~ returns (Wall_volume wall_10_20_m5).
Proof.
  assert (Hsolid : Forall solid (_layers wall_10_20)).
  { repeat constructor. }
  assert (Hnot : ~ Forall solid (_layers wall_10_20_m5)).
  { intros Hall. apply Forall_forall with (x := window_5) in Hall.
    - destruct Hall as [Hbase _]. discriminate Hbase.
    - simpl. tauto. }
  split; [exact Hsolid | split; [ | split; [exact Hnot | ]]].
  - apply (proj1 (proj2 (Wall_volume_returns_iff wall_10_20) Hsolid)).
  - intros Hret. apply Hnot. apply (proj1 (proj1 (Wall_volume_returns_iff wall_10_20_m5)) Hret).
Defined.

Lemma Wall_dimensions_returns_iff_witness :
  Wall_dimensions wall_empty = Ok [VInt 0; VInt 0; VInt 0] /\
  ~ returns (Wall_dimensions wall_10_20).
Proof.
  split.
  - apply (proj2 (Wall_dimensions_returns_iff wall_empty) eq_refl).
  - intros Hret. apply (proj1 (proj1 (Wall_dimensions_returns_iff wall_10_20))) in Hret.
    discriminate Hret.
Defined.

(** Of the two layers named "outer" the first is removed, the second
    stays. *)
Lemma Wall_remove_layer_first_witness :
  exists w',
    Wall_remove_layer Z.eqb wall_two_outer "outer" = Ok w' /\
    w_name w' = "nord" /\
    _layers w' = [OLayer layer_10; window_5; OLayer layer_20] /\
    S (List.length (_layers w')) = 4%nat.
Proof.
  apply (Wall_remove_layer_first Z.eqb wall_two_outer "outer"
           [OLayer layer_10] [window_5; OLayer layer_20] (OLayer layer_20)).
  - reflexivity.
  - reflexivity.
  - intros item [<- | []]. discriminate.
Defined.

Lemma Wall_remove_layer_returns_iff_witness :
  Wall_remove_layer Z.eqb wall_10_20 "roof" = Raise (AssertionError "not found in the Wall layers") /\
  returns (Wall_remove_layer Z.eqb wall_10_20 "inner").
Proof.
  split.
  - apply (proj2 (Wall_remove_layer_returns_iff Z.eqb wall_10_20 "roof")).
    simpl. intros [H | [H | []]]; discriminate H.
  - apply (proj2 (proj1 (Wall_remove_layer_returns_iff Z.eqb wall_10_20 "inner"))).
    left. reflexivity.
Defined.

Lemma Wall_add_then_remove_witness :
  ~ In "six" (layer_names wall_10_20) /\
  (w' <- Wall_add_layer wall_10_20 (OLayer layer_6) ;; Wall_remove_layer Z.eqb w' "six") =
    Ok wall_10_20.
Proof.
  assert (Hfresh : ~ In (name (fields (OLayer layer_6))) (layer_names wall_10_20)).
  { simpl. intros [H | [H | []]]; discriminate H. }
  split; [exact Hfresh | ].
  exact (Wall_add_then_remove Z.eqb wall_10_20 (OLayer layer_6) Hfresh).
Defined.
